(** * lcd1602a-i2c: an LCD1602A character display behind a PCF8574 expander

    A shallow embedding of [lcd1602a-i2c.c].  The driver's private data
    ([struct lcd1602a_t]) and everything the driver does to the outside
    (loads and stores of its two flags, I2C byte writes, busy waits, mutex
    operations) are threaded through a small state monad; the functions
    keep the names and the statement order of the C source. *)

From Stdlib Require Import ZArith List Bool Lia String Ascii DecimalString.
Import ListNotations.
Local Open Scope Z_scope.

(** ** Machine integers *)

(** A [u8] is kept as a [Z]; assignments to a [u8] variable wrap. *)
Definition u8 (z : Z) : Z := z mod 256.

Definition b2z (b : bool) : Z := if b then 1 else 0.

(** ** Constants of the source *)

(** PCF8574 8-bit I2C GPIO-expander *)
Definition GPIO0 : Z := Z.shiftl 1 0.
Definition GPIO1 : Z := Z.shiftl 1 1.
Definition GPIO2 : Z := Z.shiftl 1 2.
Definition GPIO3 : Z := Z.shiftl 1 3.
Definition GPIO4 : Z := Z.shiftl 1 4.
Definition GPIO5 : Z := Z.shiftl 1 5.
Definition GPIO6 : Z := Z.shiftl 1 6.
Definition GPIO7 : Z := Z.shiftl 1 7.

(** PCF8574 GPIO to LCD1602A mapping *)
Definition RS_PIN : Z := GPIO0. (* 0 = CMD, 1 = DATA *)
Definition RW_PIN : Z := GPIO1. (* 0 = W, 1 = R *)
Definition E_PIN  : Z := GPIO2. (* 1 -> 0 strobe bit *)
Definition K_PIN  : Z := GPIO3. (* 1 = enable display light, 0 = disable *)
Definition D4_PIN : Z := GPIO4.
Definition D5_PIN : Z := GPIO5.
Definition D6_PIN : Z := GPIO6.
Definition D7_PIN : Z := GPIO7.

(** List of commands *)
Definition CMD_LCD_CLEAR         : Z := 0x01.
Definition CMD_RETURN_CURSOR     : Z := 0x02.
Definition CMD_SHIFT_CURSOR_L    : Z := 0x04.
Definition CMD_SHIFT_CURSOR_R    : Z := 0x06.
Definition CMD_LCD_POWEROFF      : Z := 0x08.
Definition CMD_REMOVE_CURSOR     : Z := 0x0c.
Definition CMD_SQUARE_CURSOR     : Z := 0x0e.
Definition CMD_LINE_CURSOR       : Z := 0x0e.
Definition CMD_4BIT_1ROW         : Z := 0x20.
Definition CMD_4BIT_2ROWS        : Z := 0x28.
Definition CMD_GET_RAM_BASE      : Z := 0x40.
Definition CMD_SET_POS_0ROW_BASE : Z := 0x80.
Definition CMD_SET_POS_1ROW_BASE : Z := 0xc0.

(** uDelays *)
Definition CMD_INIT_UDELAY  : Z := 2500.
Definition CMD_USUAL_UDELAY : Z := 500.
Definition NO_CMD_UDELAY    : Z := 50.

(** errno values returned by the file operations *)
Definition EIO    : Z := 5.
Definition ENOMEM : Z := 12.
Definition EFAULT : Z := 14.

(** ** Private data and the device's history *)

(** [struct lcd1602a_t]: the two flags and the mutex ([lock] is [true]
    while the mutex is held).  The [dev], [client] and [miscdev] members
    are handles of the platform and carry no state of the driver. *)
Record lcd1602a_t : Type := mk_priv {
  power : bool;
  light : bool;
  lock  : bool
}.

Inductive field : Type := F_power | F_light.

(** What the driver does, one event per access. *)
Inductive event : Type :=
| EvLoad (f : field)
| EvStore (f : field) (v : bool)
| EvI2cWrite (data : Z)
| EvUdelay (us : Z)
| EvMutexLock
| EvMutexUnlock.

(** The private data together with the events so far, newest first. *)
Record world : Type := mk_world {
  priv  : lcd1602a_t;
  trace : list event
}.

(** The events in the order they happened. *)
Definition history (w : world) : list event := rev (trace w).

Definition get_field (f : field) (p : lcd1602a_t) : bool :=
  match f with
  | F_power => power p
  | F_light => light p
  end.

Definition set_field (f : field) (v : bool) (p : lcd1602a_t) : lcd1602a_t :=
  match f with
  | F_power => mk_priv v (light p) (lock p)
  | F_light => mk_priv (power p) v (lock p)
  end.

Definition set_lock (v : bool) (p : lcd1602a_t) : lcd1602a_t :=
  mk_priv (power p) (light p) v.

(** ** The monad of driver code

    A computation takes the world and either returns a value and the new
    world, or never returns ([None]): the only such case is [mutex_lock]
    on a mutex that is already held and that nobody will release. *)
Definition M (A : Type) : Type := world -> option (A * world).

Definition ret {A : Type} (a : A) : M A := fun w => Some (a, w).

Definition bind {A B : Type} (m : M A) (k : A -> M B) : M B :=
  fun w => match m w with
           | Some (a, w') => k a w'
           | None => None
           end.

Declare Scope drv_scope.
Delimit Scope drv_scope with drv.
Notation "x <- m ;; k" := (bind m (fun x => k))
  (at level 61, m at next level, right associativity) : drv_scope.
Notation "m ;; k" := (bind m (fun _ => k))
  (at level 61, right associativity) : drv_scope.
Local Open Scope drv_scope.

Definition emit (e : event) (w : world) : world :=
  mk_world (priv w) (e :: trace w).

Definition load (f : field) : M bool :=
  fun w => Some (get_field f (priv w), emit (EvLoad f) w).

Definition store (f : field) (v : bool) : M unit :=
  fun w => Some (tt, emit (EvStore f v) (mk_world (set_field f v (priv w)) (trace w))).

Definition udelay (us : Z) : M unit :=
  fun w => Some (tt, emit (EvUdelay us) w).

Definition mutex_lock : M unit :=
  fun w => if lock (priv w) then None
           else Some (tt, emit EvMutexLock (mk_world (set_lock true (priv w)) (trace w))).

Definition mutex_unlock : M unit :=
  fun w => Some (tt, emit EvMutexUnlock (mk_world (set_lock false (priv w)) (trace w))).

(** The bytes written to the expander, oldest first. *)
Fixpoint writes_of (h : list event) : list Z :=
  match h with
  | [] => []
  | EvI2cWrite d :: h' => d :: writes_of h'
  | _ :: h' => writes_of h'
  end.

Definition wire (w : world) : list Z := writes_of (history w).

(** ** ExpanderLineEncoder, as the specification words it

    Bits 4-7 carry the nibble, bit 0 is [isData], bit 1 is 0, bit 2 is the
    strobe and bit 3 the backlight. *)
Definition encodeNibble (nibble : Z) (isData backlightOn strobeHigh : bool) : Z :=
  16 * nibble + 8 * b2z backlightOn + 4 * b2z strobeHigh + b2z isData.

Definition high_nibble (b : Z) : Z := b / 16.
Definition low_nibble (b : Z) : Z := b mod 16.

(** The events of one two-nibble transfer of [b], by the specification. *)
Definition nibble_events (nibble : Z) (isData backlightOn : bool) : list event :=
  [ EvLoad F_light;
    EvI2cWrite (encodeNibble nibble isData backlightOn true);
    EvUdelay 50;
    EvI2cWrite (encodeNibble nibble isData backlightOn false);
    EvUdelay 500 ].

Definition sendByte_events (b : Z) (isData backlightOn : bool) : list event :=
  nibble_events (high_nibble b) isData backlightOn ++
  nibble_events (low_nibble b) isData backlightOn.

(** ** User memory and formatting *)

(** A buffer handed in from user space: [access_ok buf count] is the range
    check, [get_user buf i] reads the octet at [buf + i] and is [None] when
    the access faults. *)
Record user_buf : Type := mk_user_buf {
  access_ok : nat -> bool;
  get_user  : nat -> option Z
}.

(** A buffer that holds the octets [l] and nothing else. *)
Definition user_of_list (l : list Z) : user_buf :=
  mk_user_buf (fun count => (count <=? List.length l)%nat) (fun i => nth_error l i).

Definition newline : string := String (ascii_of_nat 10) EmptyString.

(** [sprintf(buf, "%d\n", v)] *)
Definition sprintf_d_nl (v : Z) : string :=
  (NilZero.string_of_int (Z.to_int v) ++ newline)%string.

(** The allocation [devm_kzalloc] returns: all zero, nothing done yet. *)
Definition kzalloc : world := mk_world (mk_priv false false false) [].

Definition mutex_init : M unit :=
  fun w => Some (tt, mk_world (set_lock false (priv w)) (trace w)).

Section Driver.

(** The I2C adapter: the return code of [i2c_smbus_write_byte] for a byte,
    given everything that happened before (0 on success, a negative errno on
    failure). *)
Variable i2c_smbus_write_byte : list event -> Z -> Z.

Definition lcd1602a_write_byte (data : Z) : M Z :=
  fun w => Some (i2c_smbus_write_byte (trace w) data, emit (EvI2cWrite data) w).

Definition lcd1602a_send_command (cmd : Z) : M unit :=
  (* send upper 4 bits of cmd *)
  let data := 0 in
  l <- load F_light ;;
  let data := if l then u8 (Z.lor data K_PIN) else data in
  let data := u8 (Z.lor data (Z.land cmd 0xf0)) in
  let data := u8 (Z.lor data E_PIN) in
  lcd1602a_write_byte data ;;
  udelay NO_CMD_UDELAY ;;
  let data := u8 (Z.land data (Z.lnot E_PIN)) in
  lcd1602a_write_byte data ;;
  udelay CMD_USUAL_UDELAY ;;
  (* send lower 4 bits of cmd *)
  let data := 0 in
  l <- load F_light ;;
  let data := if l then u8 (Z.lor data K_PIN) else data in
  let data := u8 (Z.lor data (Z.shiftl (Z.land cmd 0x0f) 4)) in
  let data := u8 (Z.lor data E_PIN) in
  lcd1602a_write_byte data ;;
  udelay NO_CMD_UDELAY ;;
  let data := u8 (Z.land data (Z.lnot E_PIN)) in
  lcd1602a_write_byte data ;;
  udelay CMD_USUAL_UDELAY.

Definition lcd1602a_poweron : M unit :=
  store F_power true ;;
  store F_light true ;;
  lcd1602a_send_command CMD_LCD_CLEAR ;;
  udelay CMD_INIT_UDELAY ;;
  lcd1602a_send_command CMD_RETURN_CURSOR ;;
  udelay CMD_INIT_UDELAY ;;
  lcd1602a_send_command CMD_4BIT_2ROWS ;;
  lcd1602a_send_command CMD_LINE_CURSOR ;;
  lcd1602a_send_command CMD_REMOVE_CURSOR ;;
  lcd1602a_send_command CMD_SHIFT_CURSOR_R ;;
  lcd1602a_send_command CMD_LCD_CLEAR ;;
  udelay CMD_INIT_UDELAY.

Definition lcd1602a_poweroff : M unit :=
  store F_power true ;;
  store F_light true ;;
  lcd1602a_send_command CMD_LCD_CLEAR ;;
  udelay CMD_INIT_UDELAY ;;
  lcd1602a_send_command CMD_RETURN_CURSOR ;;
  udelay CMD_INIT_UDELAY ;;
  store F_light false ;;
  lcd1602a_send_command CMD_LCD_POWEROFF ;;
  udelay CMD_INIT_UDELAY ;;
  store F_power false.

Definition lcd1602a_clear : M unit :=
  lcd1602a_send_command CMD_RETURN_CURSOR ;;
  udelay CMD_INIT_UDELAY ;;
  lcd1602a_send_command CMD_LCD_CLEAR ;;
  udelay CMD_INIT_UDELAY ;;
  lcd1602a_send_command CMD_SHIFT_CURSOR_R.

Definition lcd1602a_put_char (ch : Z) : M unit :=
  (* send upper 4 bits of char *)
  let data := 0 in
  l <- load F_light ;;
  let data := if l then u8 (Z.lor data K_PIN) else data in
  let data := u8 (Z.lor data (Z.land ch 0xf0)) in
  let data := u8 (Z.lor data RS_PIN) in
  let data := u8 (Z.lor data E_PIN) in
  lcd1602a_write_byte data ;;
  udelay NO_CMD_UDELAY ;;
  let data := u8 (Z.land data (Z.lnot E_PIN)) in
  lcd1602a_write_byte data ;;
  udelay CMD_USUAL_UDELAY ;;
  (* send lower 4 bits of cmd *)
  let data := 0 in
  l <- load F_light ;;
  let data := if l then u8 (Z.lor data K_PIN) else data in
  let data := u8 (Z.lor data (Z.shiftl (Z.land ch 0x0f) 4)) in
  let data := u8 (Z.lor data RS_PIN) in
  let data := u8 (Z.lor data E_PIN) in
  lcd1602a_write_byte data ;;
  udelay NO_CMD_UDELAY ;;
  let data := u8 (Z.land data (Z.lnot E_PIN)) in
  lcd1602a_write_byte data ;;
  udelay CMD_USUAL_UDELAY.

(** [sendByte] of the specification: a command or a character. *)
Definition sendByte (isData : bool) (b : Z) : M unit :=
  if isData then lcd1602a_put_char b else lcd1602a_send_command b.

(** [lcd1602a_read]: not implemented in the source, logs and returns 0. *)
Definition lcd1602a_read : M Z := ret 0.

(** The body of the [for] loop of [lcd1602a_write], [n] iterations from
    index [i].  [Some e] is the early [return e] inside the loop. *)
Fixpoint lcd1602a_write_loop (buf : user_buf) (n : nat) (i : nat) : M (option Z) :=
  match n with
  | O => ret None
  | S n' =>
      match get_user buf i with
      | None => ret (Some (- EFAULT))
      | Some ch => lcd1602a_put_char ch ;; lcd1602a_write_loop buf n' (S i)
      end
  end.

Definition lcd1602a_write (buf : user_buf) (count : nat) : M Z :=
  if negb (access_ok buf count) then ret (- EFAULT)
  else
    let count := if (16 <? count)%nat then 16%nat else count in
    p <- load F_power ;;
    if negb p then ret 0
    else
      mutex_lock ;;
      lcd1602a_poweron ;;
      r <- lcd1602a_write_loop buf count 0 ;;
      match r with
      | Some e => ret e
      | None => mutex_unlock ;; ret (Z.of_nat count)
      end.

Definition lcd1602a_power_show : M (string * Z) :=
  mutex_lock ;;
  p <- load F_power ;;
  let buf := sprintf_d_nl (b2z p) in
  let count := Z.of_nat (String.length buf) in
  mutex_unlock ;;
  ret (buf, count).

(** The scanner behind [sscanf(buf, "%d", &code)]: [Some v] when an integer
    was converted and stored, [None] when [code] was left untouched. *)
Variable sscanf_d : string -> option Z.

Definition lcd1602a_power_store (buf : string) (count : nat) : M Z :=
  let code := 0 in
  mutex_lock ;;
  let code := match sscanf_d buf with Some v => v | None => code end in
  (if code =? 0 then lcd1602a_poweroff else lcd1602a_poweron) ;;
  mutex_unlock ;;
  ret (Z.of_nat count).

(** [lcd1602a_probe], run on the zeroed allocation.  The three arguments
    are the answers of the platform: whether the adapter supports
    SMBus byte transfers, whether the allocation succeeded, and the return
    code of [misc_register]. *)
Definition lcd1602a_probe (has_smbus_byte alloc_ok : bool) (misc_register : Z) : M Z :=
  if negb has_smbus_byte then ret (- EIO)
  else if negb alloc_ok then ret (- ENOMEM)
  else
    mutex_init ;;
    store F_power false ;;
    store F_light false ;;
    let r := misc_register in
    if negb (r =? 0) then ret r
    else
      lcd1602a_poweron ;;
      ret r.

(** ** The operations a device goes through after it was attached *)

Inductive operation : Type :=
| OpPowerOn
| OpPowerOff
| OpClear
| OpWrite (buf : user_buf) (count : nat)
| OpRead
| OpPowerShow
| OpPowerStore (buf : string) (count : nat).

Definition run (o : operation) : M unit :=
  match o with
  | OpPowerOn => lcd1602a_poweron
  | OpPowerOff => lcd1602a_poweroff
  | OpClear => lcd1602a_clear
  | OpWrite buf count => lcd1602a_write buf count ;; ret tt
  | OpRead => lcd1602a_read ;; ret tt
  | OpPowerShow => lcd1602a_power_show ;; ret tt
  | OpPowerStore buf count => lcd1602a_power_store buf count ;; ret tt
  end.

(** The worlds in which some operation has just returned. *)
Inductive reachable : world -> Prop :=
| reach_probe (f a : bool) (m r : Z) (w : world) :
    lcd1602a_probe f a m kzalloc = Some (r, w) -> reachable w
| reach_run (o : operation) (w w' : world) :
    reachable w -> run o w = Some (tt, w') -> reachable w'.

End Driver.

(** ** Instruction names of the HD44780 controller

    The instruction is told by the position of its leading 1 bit; the
    bits below it are its parameters. *)
Inductive instruction : Type :=
| ClearDisplay
| ReturnHome
| EntryModeSet (increment shift : bool)
| DisplayControl (display cursor blink : bool)
| CursorDisplayShift (display right : bool)
| FunctionSet (eight_bit two_rows big_font : bool).

Definition opcode (i : instruction) : Z :=
  match i with
  | ClearDisplay => 0x01
  | ReturnHome => 0x02
  | EntryModeSet id s => 0x04 + 2 * b2z id + b2z s
  | DisplayControl d c b => 0x08 + 4 * b2z d + 2 * b2z c + b2z b
  | CursorDisplayShift sc rl => 0x10 + 8 * b2z sc + 4 * b2z rl
  | FunctionSet dl n f => 0x20 + 16 * b2z dl + 8 * b2z n + 4 * b2z f
  end.

(** A lifecycle sequence is a list of instructions and waits. *)
Inductive step : Type :=
| Cmd (i : instruction)
| Wait (us : Z).

Definition step_events (backlightOn : bool) (s : step) : list event :=
  match s with
  | Cmd i => sendByte_events (opcode i) false backlightOn
  | Wait us => [EvUdelay us]
  end.

Definition steps_events (backlightOn : bool) (l : list step) : list event :=
  flat_map (step_events backlightOn) l.

(** The PowerOn sequence as the specification names it. *)
Definition poweron_named : list step :=
  [ Cmd ClearDisplay; Wait 2500;
    Cmd ReturnHome; Wait 2500;
    Cmd (FunctionSet false true false);
    Cmd (EntryModeSet true false);
    Cmd (DisplayControl true false false);
    Cmd (CursorDisplayShift true true);
    Cmd ClearDisplay; Wait 2500 ].

(** The PowerOn sequence of the source, instruction by instruction. *)
Definition poweron_steps : list step :=
  [ Cmd ClearDisplay; Wait 2500;
    Cmd ReturnHome; Wait 2500;
    Cmd (FunctionSet false true false);
    Cmd (DisplayControl true true false);
    Cmd (DisplayControl true false false);
    Cmd (EntryModeSet true false);
    Cmd ClearDisplay; Wait 2500 ].

Definition opcodes (l : list step) : list Z :=
  flat_map (fun s => match s with Cmd i => [opcode i] | Wait _ => [] end) l.

(** The events of the two lifecycle sequences of the source. *)
Definition poweron_events : list event :=
  [EvStore F_power true; EvStore F_light true] ++
  steps_events true poweron_steps.

Definition poweroff_events : list event :=
  [EvStore F_power true; EvStore F_light true] ++
  steps_events true [Cmd ClearDisplay; Wait 2500; Cmd ReturnHome; Wait 2500] ++
  [EvStore F_light false] ++
  steps_events false [Cmd (DisplayControl false false false); Wait 2500] ++
  [EvStore F_power false].

(** The events of the characters of a text, with the backlight on. *)
Definition text_events (l : list Z) : list event :=
  flat_map (fun ch => sendByte_events ch true true) l.

(** ** Line states

    [line_state d b off isData strobe backlight]: the byte [d] carries bits
    [off .. off+3] of [b] on the data lines D4-D7 and the four control
    lines as given. *)
Definition line_state (d b off : Z) (isData strobe backlight : bool) : Prop :=
  0 <= d < 256 /\
  (forall i, 0 <= i < 4 -> Z.testbit d (4 + i) = Z.testbit b (off + i)) /\
  Z.testbit d 0 = isData /\
  Z.testbit d 1 = false /\
  Z.testbit d 2 = strobe /\
  Z.testbit d 3 = backlight.

(** ** Observing a run *)

Definition result {A : Type} (o : option (A * world)) : option A :=
  option_map fst o.

Definition events {A : Type} (o : option (A * world)) : option (list event) :=
  option_map (fun r => history (snd r)) o.

Definition flags {A : Type} (o : option (A * world)) : option (bool * bool * bool) :=
  option_map (fun r => (power (priv (snd r)), light (priv (snd r)), lock (priv (snd r)))) o.

(** A device that is on, with the mutex free and nothing logged. *)
Definition powered_on : world := mk_world (mk_priv true true false) [].

(** An adapter on which every transfer succeeds, one on which every
    transfer fails. *)
Definition quiet_bus : list event -> Z -> Z := fun _ _ => 0.
Definition failing_bus : list event -> Z -> Z := fun _ _ => - EIO.

(** A buffer inside the user's address range none of whose pages is
    mapped: the range check passes, every read faults. *)
Definition faulting_buf : user_buf := mk_user_buf (fun _ => true) (fun _ => None).

(** A pointer outside the user's address range. *)
Definition bad_pointer : user_buf := mk_user_buf (fun _ => false) (fun _ => None).

(** ** Lock discipline on a history

    One critical section: the mutex is taken first, released last, and not
    touched in between. *)
Definition is_mutex_event (e : event) : bool :=
  match e with
  | EvMutexLock | EvMutexUnlock => true
  | _ => false
  end.

Definition one_critical_section (h : list event) : bool :=
  match h with
  | EvMutexLock :: t =>
      match rev t with
      | EvMutexUnlock :: body => forallb (fun e => negb (is_mutex_event e)) body
      | _ => false
      end
  | _ => false
  end.

(** ** A scanner to run the power attribute on

    Decimal conversion in the manner of the kernel's [vsscanf] for ["%d"]:
    leading white space is skipped, a minus sign is accepted, at least one
    digit is required, and the value is stored in a 32-bit [int]. *)
Definition is_space (c : ascii) : bool :=
  let n := nat_of_ascii c in
  ((n =? 32) || ((9 <=? n) && (n <=? 13)))%nat.

Definition digit_of (c : ascii) : option Z :=
  let n := nat_of_ascii c in
  if ((48 <=? n) && (n <=? 57))%nat then Some (Z.of_nat n - 48) else None.

Fixpoint skip_spaces (s : string) : string :=
  match s with
  | String c s' => if is_space c then skip_spaces s' else s
  | EmptyString => s
  end.

Fixpoint scan_digits (acc : Z) (s : string) : Z :=
  match s with
  | String c s' =>
      match digit_of c with
      | Some d => scan_digits (10 * acc + d) s'
      | None => acc
      end
  | EmptyString => acc
  end.

Definition int32 (z : Z) : Z := (z + 2147483648) mod 4294967296 - 2147483648.

Definition starts_with_digit (s : string) : bool :=
  match s with
  | String c _ => match digit_of c with Some _ => true | None => false end
  | EmptyString => false
  end.

Definition scan_int (s : string) : option Z :=
  match skip_spaces s with
  | String "-"%char s' =>
      if starts_with_digit s' then Some (int32 (- scan_digits 0 s')) else None
  | s' =>
      if starts_with_digit s' then Some (int32 (scan_digits 0 s')) else None
  end.

(** ** Octets *)

Definition octet (c : Z) : Prop := 0 <= c < 256.

Definition all_octets : list Z := map Z.of_nat (seq 0 256).

(** The two flags go together. *)
Definition flags_agree (w : world) : Prop :=
  power (priv w) = light (priv w).

(** ** Instances to run the driver on *)

Definition twenty_octets : list Z :=
  [0x41; 0x42; 0x43; 0x44; 0x45; 0x46; 0x47; 0x48; 0x49; 0x4a;
   0x4b; 0x4c; 0x4d; 0x4e; 0x4f; 0x50; 0x51; 0x52; 0x53; 0x54].

(** The device after a successful attach, and after a store of 0 to its
    power attribute. *)
Definition attached : world :=
  match lcd1602a_probe quiet_bus true true 0 kzalloc with
  | Some (_, w) => w
  | None => kzalloc
  end.

Definition switched_off : world :=
  match run quiet_bus scan_int (OpPowerStore "0" 1) attached with
  | Some (_, w) => w
  | None => kzalloc
  end.

(** ** Observers of a history *)

(** The octets the loop of [lcd1602a_write] gets from the user: at most [n]
    of them from index [i] on, up to the first read that faults. *)
Fixpoint read_prefix (buf : user_buf) (n i : nat) : list Z :=
  match n with
  | O => []
  | S n' =>
      match get_user buf i with
      | None => []
      | Some ch => ch :: read_prefix buf n' (S i)
      end
  end.

(** The microseconds spent in [udelay]. *)
Fixpoint busy_time (h : list event) : Z :=
  match h with
  | [] => 0
  | EvUdelay us :: h' => us + busy_time h'
  | _ :: h' => busy_time h'
  end.

(** The bytes come in pairs: one with the strobe line E high, then the
    same byte with E low. *)
Fixpoint strobed (l : list Z) : bool :=
  match l with
  | [] => true
  | d1 :: d2 :: rest => Z.testbit d1 2 && (d2 =? d1 - E_PIN) && strobed rest
  | _ => false
  end.

(** A byte for the expander: eight bits, with the R/W line (bit 1) low. *)
Definition line_ok (d : Z) : bool :=
  (0 <=? d) && (d <? 256) && negb (Z.testbit d 1).

(** Every byte write is followed at once by a wait, of at least
    [NO_CMD_UDELAY] after a byte with the strobe high and of at least
    [CMD_USUAL_UDELAY] after a byte with the strobe low. *)
Fixpoint paced (h : list event) : bool :=
  match h with
  | [] => true
  | EvI2cWrite d :: h' =>
      match h' with
      | EvUdelay us :: h'' =>
          ((if Z.testbit d 2 then NO_CMD_UDELAY else CMD_USUAL_UDELAY) <=? us)
          && paced h''
      | _ => false
      end
  | _ :: h' => paced h'
  end.

Definition orderly (h : list event) : bool :=
  strobed (writes_of h) && forallb line_ok (writes_of h) && paced h.

(** What the display takes from the wire in 4-bit mode: on each falling
    edge of E it samples RS and the lines D4-D7; two samples make a byte,
    the high nibble first. *)
Fixpoint latch (l : list Z) : list (bool * Z) :=
  match l with
  | _ :: d2 :: _ :: d4 :: rest =>
      (Z.testbit d2 0, 16 * (d2 / 16) + d4 / 16) :: latch rest
  | _ => []
  end.

(** The events of [lcd1602a_clear], by the backlight flag. *)
Definition clear_events (backlightOn : bool) : list event :=
  steps_events backlightOn
    [ Cmd ReturnHome; Wait 2500; Cmd ClearDisplay; Wait 2500;
      Cmd (EntryModeSet true false) ].

(** A buffer whose first two octets can be read and whose third cannot. *)
Definition half_mapped : user_buf :=
  mk_user_buf (fun _ => true)
    (fun i => match i with
              | 0%nat => Some 0x48
              | 1%nat => Some 0x49
              | _ => None
              end).

(** The device after a one-octet write from [faulting_buf] while on. *)
Definition wedged : world :=
  match lcd1602a_write quiet_bus faulting_buf 1 powered_on with
  | Some (_, w) => w
  | None => kzalloc
  end.

(** ** Proof steps *)

(** Settles an equation between two functions of an octet by running both
    on the 256 octets; [agree] is the lemma that allows it. *)
Ltac by_enumeration agree b Hb :=
  revert b Hb;
  match goal with
  | |- forall b, _ -> @?L b = @?R b => apply (agree L R)
  end;
  vm_compute; reflexivity.

(** Unfolds the monad and the primitive operations, and leaves the
    arithmetic on bytes alone. *)
Ltac step_driver :=
  cbv beta iota zeta delta
    [lcd1602a_send_command lcd1602a_put_char lcd1602a_write_byte sendByte
     bind ret load store udelay emit priv trace get_field set_field
     power light lock sendByte_events nibble_events rev app
     NO_CMD_UDELAY CMD_USUAL_UDELAY CMD_INIT_UDELAY].

(** * Properties *)

(** ** Octets, by enumeration *)

Lemma octet_in_all (b : Z) : 0 <= b < 256 -> In b all_octets.
Proof.
  intros H. unfold all_octets.
  replace b with (Z.of_nat (Z.to_nat b)) by lia.
  apply in_map, in_seq. lia.
Qed.

Lemma octets_agree (f g : Z -> Z) :
  forallb (fun b => f b =? g b) all_octets = true ->
  forall b, 0 <= b < 256 -> f b = g b.
Proof.
  intros H b Hb. rewrite forallb_forall in H.
  apply Z.eqb_eq, H, octet_in_all, Hb.
Qed.



(** ** Histories *)

Lemma writes_of_app (h1 h2 : list event) :
  writes_of (h1 ++ h2) = writes_of h1 ++ writes_of h2.
Proof.
  induction h1 as [|e h1 IH]; [reflexivity|].
  destruct e; cbn; rewrite IH; reflexivity.
Qed.

Lemma history_grow (p : lcd1602a_t) (evs tr : list event) :
  history (mk_world p (rev evs ++ tr)) = rev tr ++ evs.
Proof.
  unfold history; cbn. rewrite rev_app_distr, rev_involutive. reflexivity.
Qed.

(** ** The line encoder *)

Lemma high_nibble_bits (b i : Z) :
  0 <= i -> Z.testbit (high_nibble b) i = Z.testbit b (4 + i).
Proof.
  intros Hi. unfold high_nibble.
  change 16 with (2 ^ 4). rewrite Z.div_pow2_bits by lia.
  f_equal. lia.
Qed.

Lemma low_nibble_bits (b i : Z) :
  0 <= i < 4 -> Z.testbit (low_nibble b) i = Z.testbit b (0 + i).
Proof.
  intros Hi. unfold low_nibble.
  change 16 with (2 ^ 4). rewrite Z.mod_pow2_bits_low by lia. reflexivity.
Qed.

Lemma nibble_cases (n : Z) :
  0 <= n < 16 ->
  In n [0; 1; 2; 3; 4; 5; 6; 7; 8; 9; 10; 11; 12; 13; 14; 15].
Proof.
  intros H. replace n with (Z.of_nat (Z.to_nat n)) by lia.
  change (In (Z.of_nat (Z.to_nat n)) (map Z.of_nat (seq 0 16))).
  apply in_map, in_seq. lia.
Qed.

Lemma encodeNibble_control (n : Z) (isData backlightOn strobeHigh : bool) :
  0 <= n < 16 ->
  let d := encodeNibble n isData backlightOn strobeHigh in
  0 <= d < 256 /\
  (forall i, 0 <= i < 4 -> Z.testbit d (4 + i) = Z.testbit n i) /\
  Z.testbit d 0 = isData /\
  Z.testbit d 1 = false /\
  Z.testbit d 2 = strobeHigh /\
  Z.testbit d 3 = backlightOn.
Proof.
  intros Hn d. subst d.
  assert (Hi : forall i, 0 <= i < 4 -> In i [0; 1; 2; 3]).
  { intros i Hi. assert (i = 0 \/ i = 1 \/ i = 2 \/ i = 3) as H by lia.
    cbn. intuition. }
  apply nibble_cases in Hn. cbn [In] in Hn.
  repeat (destruct Hn as [<-|Hn]; [|]); try contradiction;
    destruct isData, backlightOn, strobeHigh;
    (split; [cbv [encodeNibble b2z]; lia|]);
    (split; [intros i Hr; apply Hi in Hr; cbn [In] in Hr;
             repeat (destruct Hr as [<-|Hr]; [reflexivity|]); contradiction|]);
    repeat split; reflexivity.
Qed.

Lemma high_nibble_range (b : Z) : 0 <= b < 256 -> 0 <= high_nibble b < 16.
Proof. intros H. unfold high_nibble. split; [apply Z.div_pos; lia|apply Z.div_lt_upper_bound; lia]. Qed.

Lemma low_nibble_range (b : Z) : 0 <= low_nibble b < 16.
Proof. unfold low_nibble. apply Z.mod_pos_bound. lia. Qed.

Lemma encode_high_line (b : Z) (isData backlightOn strobeHigh : bool) :
  0 <= b < 256 ->
  line_state (encodeNibble (high_nibble b) isData backlightOn strobeHigh)
             b 4 isData strobeHigh backlightOn.
Proof.
  intros Hb.
  destruct (encodeNibble_control (high_nibble b) isData backlightOn strobeHigh
              (high_nibble_range b Hb)) as (Hr & Hd & H0 & H1 & H2 & H3).
  repeat split; try assumption; try apply Hr.
  intros i Hi. rewrite Hd by assumption. apply high_nibble_bits. lia.
Qed.

Lemma encode_low_line (b : Z) (isData backlightOn strobeHigh : bool) :
  line_state (encodeNibble (low_nibble b) isData backlightOn strobeHigh)
             b 0 isData strobeHigh backlightOn.
Proof.
  destruct (encodeNibble_control (low_nibble b) isData backlightOn strobeHigh
              (low_nibble_range b)) as (Hr & Hd & H0 & H1 & H2 & H3).
  repeat split; try assumption; try apply Hr.
  intros i Hi. rewrite Hd by assumption. apply low_nibble_bits. lia.
Qed.

Section Transfer.

Variable bus : list event -> Z -> Z.

Lemma lcd1602a_send_command_events (cmd : Z) (w : world) :
  0 <= cmd < 256 ->
  lcd1602a_send_command bus cmd w =
    Some (tt, mk_world (priv w)
                (rev (sendByte_events cmd false (light (priv w))) ++ trace w)).
Proof.
  intros Hb. destruct w as [[p l k] tr]. 
  destruct l; step_driver; repeat f_equal; by_enumeration octets_agree cmd Hb.
Qed.

Lemma lcd1602a_put_char_events (ch : Z) (w : world) :
  0 <= ch < 256 ->
  lcd1602a_put_char bus ch w =
    Some (tt, mk_world (priv w)
                (rev (sendByte_events ch true (light (priv w))) ++ trace w)).
Proof.
  intros Hb. destruct w as [[p l k] tr]. 
  destruct l; step_driver; repeat f_equal; by_enumeration octets_agree ch Hb.
Qed.

Lemma sendByte_run (isData : bool) (b : Z) (w : world) :
  0 <= b < 256 ->
  sendByte bus isData b w =
    Some (tt, mk_world (priv w)
                (rev (sendByte_events b isData (light (priv w))) ++ trace w)).
Proof.
  intros Hb. destruct isData; unfold sendByte.
  - apply lcd1602a_put_char_events, Hb.
  - apply lcd1602a_send_command_events, Hb.
Qed.

(** C1. Sending an octet [b], as a command or as a character, returns and
    leaves the flags alone; it adds exactly four bytes to the wire, in the
    order high nibble with the strobe high, high nibble with the strobe low,
    low nibble with the strobe high, low nibble with the strobe low.  Each
    byte has the nibble on bits 4-7, [isData] on bit 0, 0 on bit 1, the
    strobe on bit 2 and the current backlight flag on bit 3. *)
Theorem sendByte_four_writes (isData : bool) (b : Z) (w : world) :
  0 <= b < 256 ->
  exists w' d1 d2 d3 d4,
    sendByte bus isData b w = Some (tt, w') /\
    priv w' = priv w /\
    wire w' = wire w ++ [d1; d2; d3; d4] /\
    line_state d1 b 4 isData true (light (priv w)) /\
    line_state d2 b 4 isData false (light (priv w)) /\
    line_state d3 b 0 isData true (light (priv w)) /\
    line_state d4 b 0 isData false (light (priv w)).
Proof.
  intros Hb.
  eexists _, _, _, _, _.
  split; [apply sendByte_run, Hb|].
  split; [reflexivity|].
  split.
  - unfold wire. rewrite history_grow, writes_of_app. reflexivity.
  - repeat apply conj;
      first [apply encode_high_line, Hb | apply encode_low_line].
Qed.

End Transfer.

Section Lifecycle.

Variable bus : list event -> Z -> Z.

Lemma lcd1602a_poweron_run (w : world) :
  lcd1602a_poweron bus w =
    Some (tt, mk_world (mk_priv true true (lock (priv w)))
                (rev poweron_events ++ trace w)).
Proof. destruct w as [[p l k] tr]. reflexivity. Qed.

Lemma lcd1602a_poweroff_run (w : world) :
  lcd1602a_poweroff bus w =
    Some (tt, mk_world (mk_priv false false (lock (priv w)))
                (rev poweroff_events ++ trace w)).
Proof. destruct w as [[p l k] tr]. reflexivity. Qed.

Lemma lcd1602a_clear_run (w : world) :
  exists tr, lcd1602a_clear bus w = Some (tt, mk_world (priv w) tr).
Proof. destruct w as [[p l k] tr]. destruct l; eexists; cbv; reflexivity. Qed.

(** The instructions of [poweron_steps] are the macros of the source. *)
Lemma poweron_steps_macros :
  opcodes poweron_steps =
    [ CMD_LCD_CLEAR; CMD_RETURN_CURSOR; CMD_4BIT_2ROWS; CMD_LINE_CURSOR;
      CMD_REMOVE_CURSOR; CMD_SHIFT_CURSOR_R; CMD_LCD_CLEAR ].
Proof. reflexivity. Qed.

(** C3, as the code has it.  From any state PowerOn returns; it first
    stores [power = 1] and [light = 1] and then issues, with the backlight
    bit set, Clear-Display and a 2500 wait, Return-Home and a 2500 wait,
    Function-Set(4-bit, 2 rows), Display-Control(on, cursor on, no blink),
    Display-Control(on, no cursor), Entry-Mode(increment, no shift),
    Clear-Display and a 2500 wait, and nothing else. *)
Theorem lcd1602a_poweron_sequence (w : world) :
  exists w',
    lcd1602a_poweron bus w = Some (tt, w') /\
    history w' =
      history w ++ [EvStore F_power true; EvStore F_light true] ++
      steps_events true poweron_steps /\
    opcodes poweron_steps = [0x01; 0x02; 0x28; 0x0e; 0x0c; 0x06; 0x01] /\
    power (priv w') = true /\ light (priv w') = true.
Proof.
  eexists. split; [apply lcd1602a_poweron_run|].
  split; [apply history_grow|].
  repeat split.
Qed.

(** C5. PowerOff returns; after its two stores it issues Clear-Display and
    Return-Home with the backlight bit set, each followed by a 2500 wait,
    stores [light = 0], issues the display-off instruction with the backlight
    bit clear, waits 2500 and stores [power = 0] last.  PowerOn followed by
    PowerOff ends with both flags false. *)
Theorem lcd1602a_poweroff_sequence (w : world) :
  (exists w',
     lcd1602a_poweroff bus w = Some (tt, w') /\
     history w' =
       history w ++ [EvStore F_power true; EvStore F_light true] ++
       steps_events true [Cmd ClearDisplay; Wait 2500; Cmd ReturnHome; Wait 2500] ++
       [EvStore F_light false] ++
       steps_events false [Cmd (DisplayControl false false false); Wait 2500] ++
       [EvStore F_power false] /\
     opcode (DisplayControl false false false) = CMD_LCD_POWEROFF /\
     power (priv w') = false /\ light (priv w') = false) /\
  (exists w1 w2,
     lcd1602a_poweron bus w = Some (tt, w1) /\
     lcd1602a_poweroff bus w1 = Some (tt, w2) /\
     power (priv w2) = false /\ light (priv w2) = false).
Proof.
  split.
  - eexists. split; [apply lcd1602a_poweroff_run|].
    split; [apply history_grow|]. repeat split.
  - eexists _, _. split; [apply lcd1602a_poweron_run|].
    split; [apply lcd1602a_poweroff_run|]. split; reflexivity.
Qed.

(** C10. Whatever the flags were, PowerOff begins by storing [power = 1]
    and [light = 1], before any byte is written; the eight bytes of the
    Clear-Display and Return-Home commands that follow all have the
    backlight bit (bit 3) set. *)
Theorem lcd1602a_poweroff_lights_first (w : world) :
  exists w' rest,
    lcd1602a_poweroff bus w = Some (tt, w') /\
    history w' =
      history w ++ [EvStore F_power true; EvStore F_light true] ++
      steps_events true [Cmd ClearDisplay; Wait 2500; Cmd ReturnHome; Wait 2500] ++
      rest /\
    List.length
      (writes_of (steps_events true [Cmd ClearDisplay; Wait 2500; Cmd ReturnHome; Wait 2500]))
      = 8%nat /\
    Forall (fun d => Z.testbit d 3 = true)
      (writes_of (steps_events true [Cmd ClearDisplay; Wait 2500; Cmd ReturnHome; Wait 2500])) /\
    wire w' = wire w ++
      writes_of (steps_events true [Cmd ClearDisplay; Wait 2500; Cmd ReturnHome; Wait 2500]) ++
      writes_of rest.
Proof.
  eexists _, _. split; [apply lcd1602a_poweroff_run|].
  split; [apply history_grow|].
  split; [reflexivity|].
  split; [repeat constructor|].
  unfold wire. rewrite history_grow, writes_of_app. reflexivity.
Qed.

End Lifecycle.

(** C3, as stated, fails.  The PowerOn sequence is not the one the
    specification names: the fourth command of the source is a
    Display-Control instruction (0x0e), not Entry-Mode, and its sixth is
    Entry-Mode (0x06), not a display shift. *)
Lemma lcd1602a_poweron_not_as_named :
  events (lcd1602a_poweron quiet_bus kzalloc) <>
    Some ([EvStore F_power true; EvStore F_light true] ++
          steps_events true poweron_named).
Proof. vm_compute. intros H. discriminate H. Qed.

(** ** The device file *)

Lemma bind_some {A B : Type} (m : M A) (k : A -> M B) (w w' : world) (a : A) :
  m w = Some (a, w') -> bind m k w = k a w'.
Proof. intros H. unfold bind. rewrite H. reflexivity. Qed.

Lemma bind_cong {A B : Type} (m m' : M A) (k k' : A -> M B) (w : world) :
  m w = m' w -> (forall a w', k a w' = k' a w') -> bind m k w = bind m' k' w.
Proof.
  intros Hm Hk. unfold bind. rewrite Hm.
  destruct (m' w) as [[a w']|]; [apply Hk|reflexivity].
Qed.


Lemma Forall_firstn_octet (n : nat) (l : list Z) :
  Forall octet l -> Forall octet (firstn n l).
Proof.
  revert n. induction l as [|c l IH]; intros [|n] H; cbn; try constructor.
  - inversion H; assumption.
  - apply IH. inversion H; assumption.
Qed.

Section DeviceFile.

Variable bus : list event -> Z -> Z.

Lemma lcd1602a_put_char_frame (ch : Z) (w : world) :
  exists tr, lcd1602a_put_char bus ch w = Some (tt, mk_world (priv w) tr).
Proof. destruct w as [[p l k] tr]. eexists. step_driver. reflexivity. Qed.

Lemma lcd1602a_write_loop_frame (buf : user_buf) (n i : nat) (w : world) :
  exists r tr,
    lcd1602a_write_loop bus buf n i w = Some (r, mk_world (priv w) tr).
Proof.
  revert i w. induction n as [|n IH]; intros i w; cbn [lcd1602a_write_loop].
  - destruct w as [p tr]. eexists _, _. reflexivity.
  - destruct (get_user buf i) as [ch|].
    + destruct (lcd1602a_put_char_frame ch w) as [tr1 H1].
      rewrite (bind_some _ _ _ _ _ H1).
      destruct (IH (S i) (mk_world (priv w) tr1)) as (r & tr2 & H2).
      eexists _, _. exact H2.
    + destruct w as [p tr]. eexists _, _. reflexivity.
Qed.

Lemma lcd1602a_write_loop_text (buf : user_buf) (l : list Z) (i : nat) (w : world) :
  Forall octet l ->
  (forall j, (j < List.length l)%nat -> get_user buf (i + j) = nth_error l j) ->
  lcd1602a_write_loop bus buf (List.length l) i w =
    Some (None,
          mk_world (priv w)
            (rev (flat_map (fun ch => sendByte_events ch true (light (priv w))) l)
             ++ trace w)).
Proof.
  revert i w. induction l as [|c l IH]; intros i w Hl Hg.
  - destruct w as [p tr]. reflexivity.
  - cbn [List.length lcd1602a_write_loop].
    pose proof (Hg 0%nat ltac:(cbn; lia)) as H0.
    rewrite Nat.add_0_r in H0. cbn in H0. rewrite H0.
    inversion Hl as [|? ? Hc Hl']; subst.
    rewrite (bind_some _ _ _ _ _ (lcd1602a_put_char_events bus c w Hc)).
    rewrite IH.
    + cbn [priv trace flat_map]. rewrite rev_app_distr, <- app_assoc. reflexivity.
    + assumption.
    + intros j Hj. specialize (Hg (S j) ltac:(cbn; lia)).
      rewrite Nat.add_succ_r in Hg. exact Hg.
Qed.

(** A write on a device that is on, with the mutex free and a readable
    buffer of octets. *)
Lemma lcd1602a_write_run (l : list Z) (w : world) :
  Forall octet l ->
  power (priv w) = true ->
  lock (priv w) = false ->
  lcd1602a_write bus (user_of_list l) (List.length l) w =
    Some (Z.of_nat (List.length (firstn 16 l)),
          mk_world (mk_priv true true false)
            (rev ([EvLoad F_power; EvMutexLock] ++ poweron_events ++
                  text_events (firstn 16 l) ++ [EvMutexUnlock]) ++ trace w)).
Proof.
  intros Hl Hp Hk. destruct w as [[p li k] tr]. cbn in Hp, Hk. subst p k.
  unfold lcd1602a_write.
  cbn [user_of_list access_ok]. rewrite Nat.leb_refl. cbn [negb].
  set (count := if (16 <? List.length l)%nat then 16%nat else List.length l).
  assert (Hcount : count = List.length (firstn 16 l)).
  { subst count. rewrite length_firstn.
    destruct (Nat.ltb_spec 16 (List.length l)); lia. }
  unfold bind at 1. cbn [load get_field priv power negb emit trace].
  unfold bind at 1. cbn [mutex_lock priv lock set_lock emit trace power light].
  rewrite (bind_some _ _ _ _ _ (lcd1602a_poweron_run bus _)).
  cbn [priv lock trace].
  rewrite Hcount.
  assert (Hg : forall j, (j < List.length (firstn 16 l))%nat ->
               get_user (user_of_list l) (0 + j) = nth_error (firstn 16 l) j).
  { intros j Hj. cbn [user_of_list get_user Nat.add].
    rewrite nth_error_firstn.
    rewrite length_firstn in Hj.
    destruct (Nat.ltb_spec j 16); [reflexivity|lia]. }
  rewrite (bind_some _ _ _ _ _
             (lcd1602a_write_loop_text (user_of_list l) (firstn 16 l) 0 _
                (Forall_firstn_octet 16 l Hl) Hg)).
  unfold bind, mutex_unlock, ret, emit. cbn [priv light trace set_lock power lock].
  f_equal. f_equal. f_equal.
  unfold text_events.
  rewrite !rev_app_distr. cbn [rev app]. rewrite <- !app_assoc. reflexivity.
Qed.

End DeviceFile.

Section Session.

Variable bus : list event -> Z -> Z.
Variable scan : string -> option Z.

(** C7. On a device that is on, a write of [N] octets returns the number
    of octets it sent: after the re-initialisation it sends the first 16
    octets, in order, as characters when [N > 16], and all of them when
    [N <= 16]. *)
Theorem lcd1602a_write_truncates (l : list Z) (w : world) :
  Forall octet l ->
  power (priv w) = true ->
  lock (priv w) = false ->
  exists w' sent,
    lcd1602a_write bus (user_of_list l) (List.length l) w =
      Some (Z.of_nat (List.length sent), w') /\
    history w' =
      history w ++ [EvLoad F_power; EvMutexLock] ++ poweron_events ++
      text_events sent ++ [EvMutexUnlock] /\
    ((16 < List.length l)%nat -> sent = firstn 16 l /\ List.length sent = 16%nat) /\
    ((List.length l <= 16)%nat -> sent = l).
Proof.
  intros Hl Hp Hk.
  eexists _, (firstn 16 l).
  split; [apply lcd1602a_write_run; assumption|].
  split; [apply history_grow|].
  split.
  - intros H. split; [reflexivity|]. rewrite length_firstn. lia.
  - intros H. apply firstn_all2, H.
Qed.

Lemma lcd1602a_write_off_run (buf : user_buf) (count : nat) (w : world) :
  access_ok buf count = true ->
  power (priv w) = false ->
  lcd1602a_write bus buf count w = Some (0, emit (EvLoad F_power) w).
Proof.
  intros Ha Hp. unfold lcd1602a_write. rewrite Ha. cbn [negb].
  unfold bind, load. cbn [get_field]. rewrite Hp. reflexivity.
Qed.

(** The range check comes first: a pointer that fails it is answered with
    [-EFAULT], whether the device is on or off, and nothing else happens. *)
Lemma lcd1602a_write_access_fault (buf : user_buf) (count : nat) (w : world) :
  access_ok buf count = false ->
  lcd1602a_write bus buf count w = Some (- EFAULT, w).
Proof. intros Ha. unfold lcd1602a_write. rewrite Ha. reflexivity. Qed.

(** C6. On a device that is off, a write of any text returns 0, writes
    nothing to the expander and leaves both flags as they were. *)
Theorem lcd1602a_write_unpowered (l : list Z) (w : world) :
  power (priv w) = false ->
  exists w',
    lcd1602a_write bus (user_of_list l) (List.length l) w = Some (0, w') /\
    wire w' = wire w /\
    power (priv w') = power (priv w) /\
    light (priv w') = light (priv w).
Proof.
  intros Hp. eexists.
  split.
  - apply lcd1602a_write_off_run; [|assumption].
    cbn. apply Nat.leb_refl.
  - split; [|split; reflexivity].
    unfold wire, history, emit. cbn [trace rev].
    rewrite writes_of_app. cbn. apply app_nil_r.
Qed.

End Session.

(** ** The power attribute *)

Section PowerAttribute.

Variable bus : list event -> Z -> Z.
Variable scan : string -> option Z.

Lemma lcd1602a_power_show_run (w : world) :
  lock (priv w) = false ->
  lcd1602a_power_show w =
    Some ((String (if power (priv w) then "1" else "0")%char newline, 2),
          mk_world (priv w)
            (rev [EvMutexLock; EvLoad F_power; EvMutexUnlock] ++ trace w)).
Proof.
  intros Hk. destruct w as [[p l k] tr]. cbn in Hk. subst k.
  destruct p; reflexivity.
Qed.

Lemma lcd1602a_power_store_run (buf : string) (count : nat) (w : world) :
  lock (priv w) = false ->
  lcd1602a_power_store bus scan buf count w =
    let code := match scan buf with Some v => v | None => 0 end in
    Some (Z.of_nat count,
          mk_world (mk_priv (negb (code =? 0)) (negb (code =? 0)) false)
            (rev ([EvMutexLock] ++
                  (if code =? 0 then poweroff_events else poweron_events) ++
                  [EvMutexUnlock]) ++ trace w)).
Proof.
  intros Hk. destruct w as [[p l k] tr]. cbn in Hk. subst k.
  unfold lcd1602a_power_store.
  unfold bind at 1. cbn [mutex_lock priv lock set_lock emit trace power light].
  destruct (match scan buf with Some v => v | None => 0 end =? 0); cbn zeta.
  - rewrite (bind_some _ _ _ _ _ (lcd1602a_poweroff_run bus _)). reflexivity.
  - rewrite (bind_some _ _ _ _ _ (lcd1602a_poweron_run bus _)). reflexivity.
Qed.

(** C8. With the mutex free, reading the attribute gives the digit of the
    [power] flag, 0 or 1, followed by a newline; writing it returns the
    full count and runs, inside the mutex, PowerOff when the scan converts
    nothing or converts 0, and PowerOn when it converts a nonzero value. *)
Theorem lcd_power_attribute (buf : string) (count : nat) (w : world) :
  lock (priv w) = false ->
  (exists w',
     lcd1602a_power_show w =
       Some ((String (if power (priv w) then "1" else "0")%char newline, 2), w') /\
     priv w' = priv w) /\
  (exists w' seq,
     lcd1602a_power_store bus scan buf count w = Some (Z.of_nat count, w') /\
     history w' = history w ++ [EvMutexLock] ++ seq ++ [EvMutexUnlock] /\
     (scan buf = None -> seq = poweroff_events) /\
     (scan buf = Some 0 -> seq = poweroff_events) /\
     (forall v, scan buf = Some v -> v <> 0 -> seq = poweron_events)).
Proof.
  intros Hk. split.
  - eexists. split; [apply lcd1602a_power_show_run, Hk|reflexivity].
  - eexists _, _. split; [apply lcd1602a_power_store_run, Hk|].
    split; [apply history_grow|].
    split; [|split].
    + intros ->. reflexivity.
    + intros ->. reflexivity.
    + intros v -> Hv. apply Z.eqb_neq in Hv. rewrite Hv. reflexivity.
Qed.

(** The power attribute keeps the lock discipline: what a store does is one
    critical section. *)
Lemma lcd1602a_power_store_locked (buf : string) (count : nat) :
  events (lcd1602a_power_store bus scan buf count kzalloc) =
    Some ([EvMutexLock] ++
          (if match scan buf with Some v => v | None => 0 end =? 0
           then poweroff_events else poweron_events) ++ [EvMutexUnlock]) /\
  one_critical_section
    ([EvMutexLock] ++
     (if match scan buf with Some v => v | None => 0 end =? 0
      then poweroff_events else poweron_events) ++ [EvMutexUnlock]) = true.
Proof.
  split.
  - rewrite lcd1602a_power_store_run by reflexivity.
    unfold events. cbn [option_map snd]. rewrite history_grow. reflexivity.
  - destruct (match scan buf with Some v => v | None => 0 end =? 0); reflexivity.
Qed.

End PowerAttribute.

(** ** Transport errors *)

Section TransportErrors.

Variables bus bus' : list event -> Z -> Z.
Variable scan : string -> option Z.

Lemma sendByte_any_bus (isData : bool) (b : Z) (w : world) :
  sendByte bus isData b w = sendByte bus' isData b w.
Proof. destruct isData; reflexivity. Qed.

Lemma lcd1602a_put_char_any_bus (ch : Z) (w : world) :
  lcd1602a_put_char bus ch w = lcd1602a_put_char bus' ch w.
Proof. reflexivity. Qed.

Lemma lcd1602a_poweron_any_bus (w : world) :
  lcd1602a_poweron bus w = lcd1602a_poweron bus' w.
Proof. rewrite !lcd1602a_poweron_run. reflexivity. Qed.

Lemma lcd1602a_poweroff_any_bus (w : world) :
  lcd1602a_poweroff bus w = lcd1602a_poweroff bus' w.
Proof. rewrite !lcd1602a_poweroff_run. reflexivity. Qed.

Lemma lcd1602a_write_loop_any_bus (buf : user_buf) (n i : nat) (w : world) :
  lcd1602a_write_loop bus buf n i w = lcd1602a_write_loop bus' buf n i w.
Proof.
  revert i w. induction n as [|n IH]; intros i w; cbn [lcd1602a_write_loop].
  - reflexivity.
  - destruct (get_user buf i) as [ch|]; [|reflexivity].
    apply bind_cong; [apply lcd1602a_put_char_any_bus|intros; apply IH].
Qed.

Lemma lcd1602a_write_any_bus (buf : user_buf) (count : nat) (w : world) :
  lcd1602a_write bus buf count w = lcd1602a_write bus' buf count w.
Proof.
  unfold lcd1602a_write.
  destruct (negb (access_ok buf count)); [reflexivity|].
  apply bind_cong; [reflexivity|]. intros p w1.
  destruct (negb p); [reflexivity|].
  apply bind_cong; [reflexivity|]. intros _ w2.
  apply bind_cong; [apply lcd1602a_poweron_any_bus|]. intros _ w3.
  apply bind_cong; [apply lcd1602a_write_loop_any_bus|reflexivity].
Qed.

Lemma lcd1602a_power_store_any_bus (buf : string) (count : nat) (w : world) :
  lcd1602a_power_store bus scan buf count w =
  lcd1602a_power_store bus' scan buf count w.
Proof.
  unfold lcd1602a_power_store.
  apply bind_cong; [reflexivity|]. intros _ w1.
  apply bind_cong; [|reflexivity].
  destruct (_ =? 0);
    [apply lcd1602a_poweroff_any_bus|apply lcd1602a_poweron_any_bus].
Qed.

Lemma lcd1602a_probe_any_bus (f a : bool) (m : Z) (w : world) :
  lcd1602a_probe bus f a m w = lcd1602a_probe bus' f a m w.
Proof.
  unfold lcd1602a_probe.
  destruct (negb f); [reflexivity|]. destruct (negb a); [reflexivity|].
  apply bind_cong; [reflexivity|]. intros _ w1.
  apply bind_cong; [reflexivity|]. intros _ w2.
  apply bind_cong; [reflexivity|]. intros _ w3.
  destruct (negb (m =? 0)); [reflexivity|].
  apply bind_cong; [apply lcd1602a_poweron_any_bus|reflexivity].
Qed.

(** C2, as the code has it.  The return code of a byte write is dropped
    where it is made: a transfer, a write of text, a store to the power
    attribute and the attach do the same thing and return the same value
    on any two adapters, whichever of their transfers fail.  Nothing is
    retried and nothing is reported. *)
Theorem transport_errors_discarded :
  (forall isData b w, sendByte bus isData b w = sendByte bus' isData b w) /\
  (forall w, lcd1602a_poweron bus w = lcd1602a_poweron bus' w) /\
  (forall w, lcd1602a_poweroff bus w = lcd1602a_poweroff bus' w) /\
  (forall buf count w,
     lcd1602a_write bus buf count w = lcd1602a_write bus' buf count w) /\
  (forall buf count w,
     lcd1602a_power_store bus scan buf count w =
     lcd1602a_power_store bus' scan buf count w) /\
  (forall f a m w, lcd1602a_probe bus f a m w = lcd1602a_probe bus' f a m w).
Proof.
  split; [exact sendByte_any_bus|].
  split; [exact lcd1602a_poweron_any_bus|].
  split; [exact lcd1602a_poweroff_any_bus|].
  split; [exact lcd1602a_write_any_bus|].
  split; [exact lcd1602a_power_store_any_bus|exact lcd1602a_probe_any_bus].
Qed.

End TransportErrors.

(** C2, as stated, fails.  Every transfer fails on [failing_bus], and
    still the write of one octet to a device that is on puts its 32 bytes
    on the wire and returns 1, the count, as on a healthy adapter. *)
Lemma transport_error_swallowed :
  result (lcd1602a_write_byte failing_bus 0x0c powered_on) = Some (- EIO) /\
  result (lcd1602a_write failing_bus (user_of_list [0x48]) 1 powered_on) = Some 1 /\
  option_map (fun h => List.length (writes_of h))
    (events (lcd1602a_write failing_bus (user_of_list [0x48]) 1 powered_on))
    = Some 32%nat.
Proof. repeat split. Qed.

(** ** The mutex *)

(** C4 fails on the code.  On a device that is on, a one-octet write whose
    buffer passes the range check and faults when read returns [-EFAULT]
    with the mutex still held, so that the next store to the power attribute
    never returns; and every write reads [power] before it takes the
    mutex. *)
Theorem lcd1602a_write_fault_keeps_mutex :
  result (lcd1602a_write quiet_bus faulting_buf 1 powered_on) = Some (- EFAULT) /\
  flags (lcd1602a_write quiet_bus faulting_buf 1 powered_on) = Some (true, true, true) /\
  events (lcd1602a_write quiet_bus faulting_buf 1 powered_on) =
    Some ([EvLoad F_power; EvMutexLock] ++ poweron_events) /\
  (x <- lcd1602a_write quiet_bus faulting_buf 1 ;;
   lcd1602a_power_store quiet_bus scan_int "0" 1) powered_on = None /\
  events (lcd1602a_write quiet_bus (user_of_list [0x48]) 1 powered_on) =
    Some ([EvLoad F_power; EvMutexLock] ++ poweron_events ++
          text_events [0x48] ++ [EvMutexUnlock]) /\
  one_critical_section
    ([EvLoad F_power; EvMutexLock] ++ poweron_events ++
     text_events [0x48] ++ [EvMutexUnlock]) = false.
Proof. repeat split. Qed.

(** ** The two flags go together *)

Section Invariant.

Variable bus : list event -> Z -> Z.
Variable scan : string -> option Z.


Lemma lcd1602a_write_flags (buf : user_buf) (count : nat) (w w' : world) (r : Z) :
  lcd1602a_write bus buf count w = Some (r, w') ->
  flags_agree w -> flags_agree w'.
Proof.
  unfold lcd1602a_write, flags_agree.
  destruct (negb (access_ok buf count)).
  { intros [= _ <-]. trivial. }
  unfold bind at 1. cbn [load get_field].
  destruct (power (priv w)) eqn:Hp; cbn [negb].
  2:{ intros [= _ <-]. cbn. rewrite Hp. trivial. }
  unfold bind at 1. unfold mutex_lock at 1. cbn [emit priv trace].
  destruct (lock (priv w)); [discriminate|].
  rewrite (bind_some _ _ _ _ _ (lcd1602a_poweron_run bus _)).
  cbn [priv trace lock set_lock].
  unfold bind at 1.
  match goal with
  | |- context [lcd1602a_write_loop bus buf ?n 0 ?w0] =>
      destruct (lcd1602a_write_loop_frame bus buf n 0 w0) as (r0 & tr0 & H0);
      rewrite H0
  end.
  destruct r0 as [e|].
  - intros [= _ <-]. reflexivity.
  - intros [= _ <-]. reflexivity.
Qed.

Lemma run_flags (o : operation) (w w' : world) :
  run bus scan o w = Some (tt, w') -> flags_agree w -> flags_agree w'.
Proof.
  destruct o; cbn [run].
  - rewrite lcd1602a_poweron_run. intros [= <-] _. reflexivity.
  - rewrite lcd1602a_poweroff_run. intros [= <-] _. reflexivity.
  - destruct (lcd1602a_clear_run bus w) as [tr ->]. intros [= <-] H. exact H.
  - unfold bind.
    destruct (lcd1602a_write bus buf count w) as [[r w1]|] eqn:Hw; [|discriminate].
    intros [= <-]. eapply lcd1602a_write_flags, Hw.
  - intros [= <-] H. exact H.
  - unfold bind. destruct (lock (priv w)) eqn:Hk.
    + unfold lcd1602a_power_show, bind, mutex_lock. rewrite Hk. discriminate.
    + rewrite lcd1602a_power_show_run by assumption. intros [= <-] H. exact H.
  - unfold bind. destruct (lock (priv w)) eqn:Hk.
    + unfold lcd1602a_power_store, bind, mutex_lock. rewrite Hk. discriminate.
    + rewrite lcd1602a_power_store_run by assumption. intros [= <-] _. reflexivity.
Qed.

Lemma lcd1602a_probe_flags (f a : bool) (m r : Z) (w : world) :
  lcd1602a_probe bus f a m kzalloc = Some (r, w) -> flags_agree w.
Proof.
  unfold lcd1602a_probe.
  destruct f; cbn [negb]; [|intros [= _ <-]; reflexivity].
  destruct a; cbn [negb]; [|intros [= _ <-]; reflexivity].
  unfold bind at 1. cbn [mutex_init].
  unfold bind at 1. cbn [store].
  unfold bind at 1. cbn [store].
  destruct (negb (m =? 0)).
  - intros [= _ <-]. reflexivity.
  - rewrite (bind_some _ _ _ _ _ (lcd1602a_poweron_run bus _)).
    intros [= _ <-]. reflexivity.
Qed.

(** C9. Whenever an operation has returned - the attach, PowerOn,
    PowerOff, Clear, a write, a read, a load or a store of the power
    attribute - the [power] and [light] flags are equal: the backlight is
    on exactly when the display is. *)
Theorem power_and_light_agree (w : world) :
  reachable bus scan w -> power (priv w) = light (priv w).
Proof.
  induction 1 as [f a m r w H|o w w' _ IH H].
  - eapply lcd1602a_probe_flags, H.
  - eapply run_flags; eassumption.
Qed.

End Invariant.

(** ** Instances *)

Lemma sendByte_four_writes_witness :
  0 <= 0x48 < 256 /\
  exists w' d1 d2 d3 d4,
    sendByte quiet_bus true 0x48 powered_on = Some (tt, w') /\
    priv w' = priv powered_on /\
    wire w' = wire powered_on ++ [d1; d2; d3; d4] /\
    line_state d1 0x48 4 true true (light (priv powered_on)) /\
    line_state d2 0x48 4 true false (light (priv powered_on)) /\
    line_state d3 0x48 0 true true (light (priv powered_on)) /\
    line_state d4 0x48 0 true false (light (priv powered_on)).
Proof.
  split; [lia|apply (sendByte_four_writes quiet_bus true 0x48 powered_on); lia].
Defined.


Lemma lcd1602a_write_truncates_witness :
  Forall octet twenty_octets /\
  power (priv powered_on) = true /\
  lock (priv powered_on) = false /\
  exists w' sent,
    lcd1602a_write quiet_bus (user_of_list twenty_octets)
      (List.length twenty_octets) powered_on =
      Some (Z.of_nat (List.length sent), w') /\
    history w' =
      history powered_on ++ [EvLoad F_power; EvMutexLock] ++ poweron_events ++
      text_events sent ++ [EvMutexUnlock] /\
    ((16 < List.length twenty_octets)%nat ->
       sent = firstn 16 twenty_octets /\ List.length sent = 16%nat) /\
    ((List.length twenty_octets <= 16)%nat -> sent = twenty_octets).
Proof.
  assert (H : Forall octet twenty_octets) by (repeat constructor; unfold octet; lia).
  split; [exact H|]. split; [reflexivity|]. split; [reflexivity|].
  apply (lcd1602a_write_truncates quiet_bus twenty_octets powered_on H);
    reflexivity.
Defined.

Lemma lcd1602a_write_unpowered_witness :
  power (priv kzalloc) = false /\
  exists w',
    lcd1602a_write quiet_bus (user_of_list [0x48; 0x49]) 2 kzalloc = Some (0, w') /\
    wire w' = wire kzalloc /\
    power (priv w') = power (priv kzalloc) /\
    light (priv w') = light (priv kzalloc).
Proof.
  split; [reflexivity|].
  apply (lcd1602a_write_unpowered quiet_bus [0x48; 0x49] kzalloc). reflexivity.
Defined.

Lemma lcd_power_attribute_witness :
  lock (priv powered_on) = false /\
  (exists w',
     lcd1602a_power_show powered_on =
       Some ((String (if power (priv powered_on) then "1" else "0")%char newline, 2), w') /\
     priv w' = priv powered_on) /\
  (exists w' seq,
     lcd1602a_power_store quiet_bus scan_int "0" 1 powered_on = Some (Z.of_nat 1, w') /\
     history w' = history powered_on ++ [EvMutexLock] ++ seq ++ [EvMutexUnlock] /\
     (scan_int "0" = None -> seq = poweroff_events) /\
     (scan_int "0" = Some 0 -> seq = poweroff_events) /\
     (forall v, scan_int "0" = Some v -> v <> 0 -> seq = poweron_events)).
Proof.
  split; [reflexivity|].
  apply (lcd_power_attribute quiet_bus scan_int "0" 1 powered_on). reflexivity.
Defined.



Lemma power_and_light_agree_witness :
  reachable quiet_bus scan_int switched_off /\
  power (priv switched_off) = light (priv switched_off).
Proof.
  assert (R : reachable quiet_bus scan_int switched_off).
  { apply (reach_run _ _ (OpPowerStore "0" 1) attached).
    - apply (reach_probe _ _ true true 0 0). vm_compute. reflexivity.
    - vm_compute. reflexivity. }
  split; [exact R|apply (power_and_light_agree quiet_bus scan_int switched_off R)].
Defined.

(** * Further properties of the driver *)

(** ** Bytes beyond the octets *)

Lemma land_f0_low_bits (ch : Z) : Z.land (ch mod 256) 0xf0 = Z.land ch 0xf0.
Proof.
  change 256 with (2 ^ 8). rewrite <- Z.land_ones by lia.
  rewrite <- Z.land_assoc. reflexivity.
Qed.

Lemma land_0f_low_bits (ch : Z) : Z.land (ch mod 256) 0x0f = Z.land ch 0x0f.
Proof.
  change 256 with (2 ^ 8). rewrite <- Z.land_ones by lia.
  rewrite <- Z.land_assoc. reflexivity.
Qed.

Lemma u8_octet (ch : Z) : octet (u8 ch).
Proof. unfold octet, u8. apply Z.mod_pos_bound. lia. Qed.

Lemma octets_all (P : Z -> bool) :
  forallb P all_octets = true -> forall b, octet b -> P b = true.
Proof.
  intros H b Hb. rewrite forallb_forall in H. apply H, octet_in_all, Hb.
Qed.

Lemma Forall_octet_map_u8 (l : list Z) : Forall octet (map u8 l).
Proof. induction l; constructor; [apply u8_octet|assumption]. Qed.

Lemma map_u8_octets (l : list Z) : Forall octet l -> map u8 l = l.
Proof.
  induction 1 as [|c l Hc _ IH]; [reflexivity|].
  cbn. rewrite IH. f_equal. unfold u8. apply Z.mod_small, Hc.
Qed.

Section AnyCharacter.

Variable bus : list event -> Z -> Z.

(** Only the low eight bits of a character reach the wire. *)
Lemma lcd1602a_put_char_low_bits (ch : Z) (w : world) :
  lcd1602a_put_char bus ch w = lcd1602a_put_char bus (u8 ch) w.
Proof.
  destruct w as [[p l k] tr]. unfold u8. step_driver.
  rewrite land_f0_low_bits, land_0f_low_bits. reflexivity.
Qed.

Lemma lcd1602a_put_char_sends (ch : Z) (w : world) :
  lcd1602a_put_char bus ch w =
    Some (tt, mk_world (priv w)
                (rev (sendByte_events (u8 ch) true (light (priv w))) ++ trace w)).
Proof.
  rewrite lcd1602a_put_char_low_bits.
  apply lcd1602a_put_char_events, u8_octet.
Qed.

Lemma lcd1602a_write_loop_run (buf : user_buf) (n i : nat) (w : world) :
  lcd1602a_write_loop bus buf n i w =
    Some (if (List.length (read_prefix buf n i) =? n)%nat
          then None else Some (- EFAULT),
          mk_world (priv w)
            (rev (flat_map (fun ch => sendByte_events ch true (light (priv w)))
                    (map u8 (read_prefix buf n i)))
             ++ trace w)).
Proof.
  revert i w. induction n as [|n IH]; intros i w;
    cbn [lcd1602a_write_loop read_prefix].
  - destruct w as [p tr]. reflexivity.
  - destruct (get_user buf i) as [ch|].
    + rewrite (bind_some _ _ _ _ _ (lcd1602a_put_char_sends ch w)).
      rewrite IH. cbn [priv trace List.length map flat_map].
      rewrite rev_app_distr, <- app_assoc. reflexivity.
    + destruct w as [p tr]. reflexivity.
Qed.

Lemma read_prefix_length (buf : user_buf) (n i : nat) :
  (List.length (read_prefix buf n i) <= n)%nat.
Proof.
  revert i. induction n as [|n IH]; intros i; cbn; [lia|].
  destruct (get_user buf i); cbn; [specialize (IH (S i))|]; lia.
Qed.

(** A write on a device that is on, with the mutex free, whatever the
    buffer holds. *)
Lemma lcd1602a_write_on_run (buf : user_buf) (count : nat) (w : world) :
  access_ok buf count = true ->
  power (priv w) = true ->
  lock (priv w) = false ->
  let n := if (16 <? count)%nat then 16%nat else count in
  let cs := read_prefix buf n 0 in
  let whole := (List.length cs =? n)%nat in
  lcd1602a_write bus buf count w =
    Some (if whole then Z.of_nat n else - EFAULT,
          mk_world (mk_priv true true (negb whole))
            (rev ([EvLoad F_power; EvMutexLock] ++ poweron_events ++
                  text_events (map u8 cs) ++
                  (if whole then [EvMutexUnlock] else [])) ++ trace w)).
Proof.
  intros Ha Hp Hk n cs whole. destruct w as [[p li k] tr]. cbn in Hp, Hk. subst p k.
  unfold lcd1602a_write. rewrite Ha. cbn [negb]. fold n.
  unfold bind at 1. cbn [load get_field priv power negb emit trace].
  unfold bind at 1. cbn [mutex_lock priv lock set_lock emit trace power light].
  rewrite (bind_some _ _ _ _ _ (lcd1602a_poweron_run bus _)).
  cbn [priv lock trace].
  rewrite (bind_some _ _ _ _ _ (lcd1602a_write_loop_run buf n 0 _)).
  fold cs. fold whole. cbn [priv light trace].
  unfold text_events.
  destruct whole.
  - unfold bind, mutex_unlock, ret, emit. cbn [priv light trace set_lock power lock negb].
    f_equal. f_equal. f_equal.
    rewrite !rev_app_distr. cbn [rev app]. rewrite <- !app_assoc. reflexivity.
  - unfold ret. cbn [negb]. f_equal. f_equal. f_equal.
    rewrite app_nil_r, !rev_app_distr. cbn [rev app]. rewrite <- !app_assoc.
    reflexivity.
Qed.

Lemma lcd1602a_write_blocked (buf : user_buf) (count : nat) (w : world) :
  access_ok buf count = true ->
  power (priv w) = true ->
  lock (priv w) = true ->
  lcd1602a_write bus buf count w = None.
Proof.
  intros Ha Hp Hk. unfold lcd1602a_write. rewrite Ha. cbn [negb].
  unfold bind at 1. cbn [load get_field]. rewrite Hp. cbn [negb].
  unfold bind at 1, mutex_lock at 1. cbn [emit priv trace]. rewrite Hk.
  reflexivity.
Qed.

Lemma lcd1602a_clear_sends (w : world) :
  lcd1602a_clear bus w =
    Some (tt, mk_world (priv w) (rev (clear_events (light (priv w))) ++ trace w)).
Proof. destruct w as [[p l k] tr]. destruct l; reflexivity. Qed.

End AnyCharacter.

(** ** Well-formed histories *)

Lemma list_pair_ind {A : Type} (P : list A -> Prop) :
  P [] -> (forall x, P [x]) -> (forall x y l, P l -> P (x :: y :: l)) ->
  forall l, P l.
Proof.
  intros H0 H1 H2 l.
  enough (P l /\ forall x, P (x :: l)) by tauto.
  induction l as [|y l [IHa IHb]]; split; auto.
Qed.

Lemma strobed_app (a b : list Z) :
  strobed a = true -> strobed (a ++ b) = strobed b.
Proof.
  induction a as [|x|x y a IH] using list_pair_ind; intros H.
  - reflexivity.
  - discriminate H.
  - cbn [strobed app] in *. apply andb_true_iff in H as [H1 H2].
    rewrite H1. cbn. apply IH, H2.
Qed.

Lemma paced_app (a b : list event) :
  paced a = true -> paced (a ++ b) = paced b.
Proof.
  revert b.
  enough (H : (forall b, paced a = true -> paced (a ++ b) = paced b) /\
              (forall e b, paced (e :: a) = true ->
                           paced ((e :: a) ++ b) = paced b)) by apply H.
  induction a as [|x a [IHa IHb]]; split.
  - reflexivity.
  - intros e b H. destruct e; try reflexivity. discriminate H.
  - intros b H. apply IHb, H.
  - intros e b H. destruct e; try (apply IHb; exact H).
    destruct x; try discriminate H.
    cbn [paced app] in *. apply andb_true_iff in H as [H1 H2].
    rewrite H1. cbn. apply IHa, H2.
Qed.

Lemma orderly_app (a b : list event) :
  orderly a = true -> orderly b = true -> orderly (a ++ b) = true.
Proof.
  unfold orderly. intros Ha Hb.
  apply andb_true_iff in Ha as [Ha Ha3]. apply andb_true_iff in Ha as [Ha1 Ha2].
  apply andb_true_iff in Hb as [Hb Hb3]. apply andb_true_iff in Hb as [Hb1 Hb2].
  rewrite writes_of_app, strobed_app, forallb_app, paced_app by assumption.
  rewrite Ha2, Hb1, Hb2, Hb3. reflexivity.
Qed.

Lemma orderly_sendByte (b : Z) (isData backlightOn : bool) :
  octet b -> orderly (sendByte_events b isData backlightOn) = true.
Proof.
  revert b.
  apply (octets_all (fun b => orderly (sendByte_events b isData backlightOn))).
  destruct isData, backlightOn; vm_compute; reflexivity.
Qed.

Lemma orderly_text (l : list Z) :
  Forall octet l -> orderly (text_events l) = true.
Proof.
  induction 1 as [|c l Hc _ IH]; [reflexivity|].
  unfold text_events. cbn [flat_map].
  apply orderly_app; [apply orderly_sendByte, Hc|exact IH].
Qed.

Lemma some_pair_inv {A B : Type} (a c : A) (b d : B) :
  Some (a, b) = Some (c, d) -> a = c /\ b = d.
Proof. intros H. injection H as -> ->. auto. Qed.

Lemma some_snd_inv {A : Type} (a c : A) (b d : world) :
  Some (a, b) = Some (c, d) -> b = d.
Proof. intros H. injection H as _ ->. reflexivity. Qed.

Lemma history_emit (e : event) (w : world) :
  history (emit e w) = history w ++ [e].
Proof. reflexivity. Qed.

Section Shapes.

Variable bus : list event -> Z -> Z.
Variable scan : string -> option Z.

(** The three ways in which a write returns. *)
Lemma lcd1602a_write_inv (buf : user_buf) (count : nat) (w w' : world) (r : Z) :
  lcd1602a_write bus buf count w = Some (r, w') ->
  (access_ok buf count = false /\ r = - EFAULT /\ w' = w) \/
  (access_ok buf count = true /\ power (priv w) = false /\
   r = 0 /\ w' = emit (EvLoad F_power) w) \/
  (access_ok buf count = true /\ power (priv w) = true /\ lock (priv w) = false /\
   exists n cs whole,
   n = (if (16 <? count)%nat then 16%nat else count) /\
   cs = read_prefix buf n 0 /\
   whole = (List.length cs =? n)%nat /\
   r = (if whole then Z.of_nat n else - EFAULT) /\
   w' = mk_world (mk_priv true true (negb whole))
          (rev ([EvLoad F_power; EvMutexLock] ++ poweron_events ++
                text_events (map u8 cs) ++
                (if whole then [EvMutexUnlock] else [])) ++ trace w)).
Proof.
  intros H.
  destruct (access_ok buf count) eqn:Ha.
  2:{ rewrite (lcd1602a_write_access_fault bus buf count w Ha) in H.
      injection H as <- <-. left. auto. }
  destruct (power (priv w)) eqn:Hp.
  2:{ rewrite (lcd1602a_write_off_run bus buf count w Ha Hp) in H.
      injection H as <- <-. right; left. auto. }
  destruct (lock (priv w)) eqn:Hk.
  { rewrite (lcd1602a_write_blocked bus buf count w Ha Hp Hk) in H. discriminate H. }
  pose proof (lcd1602a_write_on_run bus buf count w Ha Hp Hk) as Hrun.
  cbv zeta in Hrun |- *.
  rewrite H in Hrun. apply some_pair_inv in Hrun as [Hr Hw].
  right; right. repeat split. eexists _, _, _. repeat split; eassumption.
Qed.

Lemma lcd1602a_write_orderly (buf : user_buf) (count : nat) (w w' : world) (r : Z) :
  lcd1602a_write bus buf count w = Some (r, w') ->
  orderly (history w) = true -> orderly (history w') = true.
Proof.
  intros H Hw.
  apply lcd1602a_write_inv in H
    as [(_ & _ & ->)|[(_ & _ & _ & ->)|(_ & _ & _ & n & cs & whole & _ & _ & _ & _ & ->)]].
  - exact Hw.
  - rewrite history_emit. apply orderly_app; [exact Hw|reflexivity].
  - rewrite history_grow. apply orderly_app; [exact Hw|].
    apply (orderly_app [_; _]); [reflexivity|].
    apply orderly_app; [vm_compute; reflexivity|].
    apply orderly_app; [apply orderly_text, Forall_octet_map_u8|].
    destruct whole; reflexivity.
Qed.

Lemma run_orderly (o : operation) (w w' : world) :
  run bus scan o w = Some (tt, w') ->
  orderly (history w) = true -> orderly (history w') = true.
Proof.
  destruct o; cbn [run]; intros H Hw.
  - rewrite lcd1602a_poweron_run in H. apply some_snd_inv in H; subst w'.
    rewrite history_grow. apply orderly_app; [exact Hw|vm_compute; reflexivity].
  - rewrite lcd1602a_poweroff_run in H. apply some_snd_inv in H; subst w'.
    rewrite history_grow. apply orderly_app; [exact Hw|vm_compute; reflexivity].
  - rewrite lcd1602a_clear_sends in H. apply some_snd_inv in H; subst w'.
    rewrite history_grow. apply orderly_app; [exact Hw|].
    destruct (light (priv w)); vm_compute; reflexivity.
  - unfold bind in H.
    destruct (lcd1602a_write bus buf count w) as [[r w1]|] eqn:E; [|discriminate H].
    apply some_snd_inv in H; subst w'. eapply lcd1602a_write_orderly; eassumption.
  - apply some_snd_inv in H; subst w'. exact Hw.
  - unfold bind in H. destruct (lock (priv w)) eqn:Hk.
    + unfold lcd1602a_power_show, bind, mutex_lock in H. rewrite Hk in H.
      discriminate H.
    + rewrite lcd1602a_power_show_run in H by assumption. apply some_snd_inv in H; subst w'.
      rewrite history_grow. apply orderly_app; [exact Hw|reflexivity].
  - unfold bind in H. destruct (lock (priv w)) eqn:Hk.
    + unfold lcd1602a_power_store, bind, mutex_lock in H. rewrite Hk in H.
      discriminate H.
    + rewrite lcd1602a_power_store_run in H by assumption. cbv zeta in H.
      apply some_snd_inv in H; subst w'.
      rewrite history_grow. apply orderly_app; [exact Hw|].
      destruct (_ =? 0); vm_compute; reflexivity.
Qed.

Lemma lcd1602a_probe_run (f a : bool) (m : Z) :
  lcd1602a_probe bus f a m kzalloc =
    Some (if negb f then - EIO else if negb a then - ENOMEM else m,
          mk_world (mk_priv (f && a && (m =? 0)) (f && a && (m =? 0)) false)
            (rev (if f && a
                  then [EvStore F_power false; EvStore F_light false] ++
                       (if m =? 0 then poweron_events else [])
                  else []))).
Proof.
  destruct f, a; try reflexivity.
  unfold lcd1602a_probe. cbn [negb andb].
  unfold bind at 1. cbn [mutex_init].
  unfold bind at 1. cbn [store].
  unfold bind at 1. cbn [store].
  cbv zeta. destruct (m =? 0); reflexivity.
Qed.

Lemma reachable_orderly (w : world) :
  reachable bus scan w -> orderly (history w) = true.
Proof.
  induction 1 as [f a m r w H|o w w' _ IH H].
  - rewrite lcd1602a_probe_run in H. apply some_snd_inv in H; subst w.
    destruct f, a; try reflexivity. destruct (m =? 0); vm_compute; reflexivity.
  - eapply run_orderly; eassumption.
Qed.

End Shapes.

(** ** Clear and attach *)

Section ClearAndAttach.

Variable bus : list event -> Z -> Z.

(** X1. Clear returns from any state and changes neither flag nor the
    mutex.  It issues Return-Home and a 2500 wait, Clear-Display and a 2500
    wait, then Entry-Mode(increment, no shift) with no wait of its own, and
    every byte carries the backlight flag as it stands. *)
Theorem lcd1602a_clear_sequence (w : world) :
  exists w',
    lcd1602a_clear bus w = Some (tt, w') /\
    priv w' = priv w /\
    history w' =
      history w ++
      steps_events (light (priv w))
        [ Cmd ReturnHome; Wait 2500; Cmd ClearDisplay; Wait 2500;
          Cmd (EntryModeSet true false) ] /\
    opcodes [ Cmd ReturnHome; Wait 2500; Cmd ClearDisplay; Wait 2500;
              Cmd (EntryModeSet true false) ] =
      [CMD_RETURN_CURSOR; CMD_LCD_CLEAR; CMD_SHIFT_CURSOR_R] /\
    Forall (fun d => Z.testbit d 3 = light (priv w))
      (writes_of (clear_events (light (priv w)))).
Proof.
  eexists. split; [apply lcd1602a_clear_sends|].
  split; [reflexivity|].
  split; [apply history_grow|].
  split; [reflexivity|].
  destruct (light (priv w)); repeat constructor.
Qed.

(** X2. The attach returns [-EIO] without SMBus byte support, [-ENOMEM]
    without memory, the code of [misc_register] when that is not 0, and 0
    otherwise.  Only in the last case is anything written to the display:
    the two flags are cleared, then PowerOn runs, outside the mutex, and
    the device ends up on.  In the failing cases no byte is written. *)
Theorem lcd1602a_probe_outcome (f a : bool) (m : Z) :
  exists w,
    lcd1602a_probe bus f a m kzalloc =
      Some ((if negb f then - EIO else if negb a then - ENOMEM else m), w) /\
    history w =
      (if f && a
       then [EvStore F_power false; EvStore F_light false] ++
            (if m =? 0 then poweron_events else [])
       else []) /\
    wire w = (if f && a && (m =? 0) then writes_of poweron_events else []) /\
    power (priv w) = (f && a && (m =? 0)) /\
    light (priv w) = (f && a && (m =? 0)) /\
    lock (priv w) = false.
Proof.
  eexists. split; [apply lcd1602a_probe_run|].
  split; [apply rev_involutive|].
  split; [|repeat split].
  unfold wire, history. cbn [trace]. rewrite rev_involutive.
  destruct f, a; try reflexivity. destruct (m =? 0); reflexivity.
Qed.

End ClearAndAttach.

(** ** Writes that fault, block or are dropped *)

Lemma read_prefix_stops (buf : user_buf) (l : list Z) (n i : nat) :
  (forall j, (j < List.length l)%nat -> get_user buf (i + j) = nth_error l j) ->
  get_user buf (i + List.length l) = None ->
  (List.length l < n)%nat ->
  read_prefix buf n i = l.
Proof.
  revert n i. induction l as [|c l IH]; intros n i Hg Hf Hn.
  - destruct n as [|n]; [reflexivity|]. cbn in *.
    rewrite Nat.add_0_r in Hf. rewrite Hf. reflexivity.
  - destruct n as [|n]; [cbn in Hn; lia|]. cbn [read_prefix].
    pose proof (Hg 0%nat ltac:(cbn; lia)) as H0.
    rewrite Nat.add_0_r in H0. cbn in H0. rewrite H0. f_equal.
    apply IH.
    + intros j Hj. specialize (Hg (S j) ltac:(cbn; lia)).
      rewrite Nat.add_succ_r in Hg. exact Hg.
    + cbn [List.length] in Hf. rewrite Nat.add_succ_r in Hf. exact Hf.
    + cbn in Hn. lia.
Qed.

Section Faults.

Variable bus : list event -> Z -> Z.

Lemma lcd1602a_write_loop_same (buf buf' : user_buf) (n i : nat) (w : world) :
  (forall j, (i <= j < i + n)%nat -> get_user buf j = get_user buf' j) ->
  lcd1602a_write_loop bus buf n i w = lcd1602a_write_loop bus buf' n i w.
Proof.
  revert i w. induction n as [|n IH]; intros i w Hg; [reflexivity|].
  cbn [lcd1602a_write_loop]. rewrite <- (Hg i) by lia.
  destruct (get_user buf i) as [ch|]; [|reflexivity].
  apply bind_cong; [reflexivity|]. intros _ w1.
  apply IH. intros j Hj. apply Hg. lia.
Qed.

(** X3. A write never looks past the sixteenth octet: two buffers that
    pass or fail the range check alike and hold the same first 16 octets
    (or fault at the same places among them) get the same result and leave
    the device in the same state, whatever the count and whatever lies
    beyond. *)
Theorem lcd1602a_write_reads_sixteen
    (buf buf' : user_buf) (count : nat) (w : world) :
  access_ok buf count = access_ok buf' count ->
  (forall j, (j < 16)%nat -> get_user buf j = get_user buf' j) ->
  lcd1602a_write bus buf count w = lcd1602a_write bus buf' count w.
Proof.
  intros Ha Hg. unfold lcd1602a_write. rewrite <- Ha.
  destruct (negb (access_ok buf count)); [reflexivity|].
  apply bind_cong; [reflexivity|]. intros p w1.
  destruct (negb p); [reflexivity|].
  apply bind_cong; [reflexivity|]. intros _ w2.
  apply bind_cong; [reflexivity|]. intros _ w3.
  apply bind_cong; [|reflexivity].
  apply lcd1602a_write_loop_same. intros j Hj. apply Hg.
  destruct (Nat.ltb_spec 16 count); lia.
Qed.

(** X4. On a device that is on, a write whose buffer can be read for the
    octets [l] and faults at the next one, before the count and before 16,
    returns [-EFAULT] after the re-initialisation and after it has sent
    [l] to the display.  It returns with the mutex held, and a second write
    never returns. *)
Theorem lcd1602a_write_fault_midway
    (buf : user_buf) (count : nat) (l : list Z) (w : world) :
  access_ok buf count = true ->
  power (priv w) = true ->
  lock (priv w) = false ->
  (forall j, (j < List.length l)%nat -> get_user buf j = nth_error l j) ->
  get_user buf (List.length l) = None ->
  (List.length l < count)%nat ->
  (List.length l < 16)%nat ->
  exists w',
    lcd1602a_write bus buf count w = Some (- EFAULT, w') /\
    history w' =
      history w ++ [EvLoad F_power; EvMutexLock] ++ poweron_events ++
      text_events (map u8 l) /\
    power (priv w') = true /\ light (priv w') = true /\
    lock (priv w') = true /\
    lcd1602a_write bus buf count w' = None.
Proof.
  intros Ha Hp Hk Hg Hf Hc H16.
  pose proof (lcd1602a_write_on_run bus buf count w Ha Hp Hk) as Hrun.
  cbv zeta in Hrun.
  set (n := if (16 <? count)%nat then 16%nat else count) in *.
  assert (Hn : (List.length l < n)%nat).
  { subst n. destruct (16 <? count)%nat; assumption. }
  rewrite (read_prefix_stops buf l n 0 Hg Hf Hn) in Hrun.
  assert (Hw : (List.length l =? n)%nat = false) by (apply Nat.eqb_neq; lia).
  rewrite Hw in Hrun. cbn [negb] in Hrun.
  eexists. split; [exact Hrun|].
  split; [rewrite history_grow, !app_nil_r; reflexivity|].
  repeat split.
  apply lcd1602a_write_blocked; [exact Ha|reflexivity|reflexivity].
Qed.

(** X5. A write fails to return in one case only: the pointer passes the
    range check, the device is on and the mutex is held. *)
Theorem lcd1602a_write_returns_iff (buf : user_buf) (count : nat) (w : world) :
  lcd1602a_write bus buf count w = None <->
  access_ok buf count = true /\ power (priv w) = true /\ lock (priv w) = true.
Proof.
  split.
  - intros H.
    destruct (access_ok buf count) eqn:Ha.
    2:{ rewrite (lcd1602a_write_access_fault bus buf count w Ha) in H. discriminate H. }
    destruct (power (priv w)) eqn:Hp.
    2:{ rewrite (lcd1602a_write_off_run bus buf count w Ha Hp) in H. discriminate H. }
    destruct (lock (priv w)) eqn:Hk; [auto|].
    rewrite (lcd1602a_write_on_run bus buf count w Ha Hp Hk) in H. discriminate H.
  - intros (Ha & Hp & Hk). apply lcd1602a_write_blocked; assumption.
Qed.

(** X6. What a write returns is [-EFAULT] or a count between 0 and 16 that
    does not exceed the count it was given. *)
Theorem lcd1602a_write_result_range
    (buf : user_buf) (count : nat) (w w' : world) (r : Z) :
  lcd1602a_write bus buf count w = Some (r, w') ->
  r = - EFAULT \/ (0 <= r <= 16 /\ r <= Z.of_nat count).
Proof.
  intros H.
  apply lcd1602a_write_inv in H
    as [(_ & -> & _)|[(_ & _ & -> & _)
                      |(_ & _ & _ & n & cs & whole & -> & _ & _ & -> & _)]].
  - left. reflexivity.
  - right. lia.
  - destruct whole; [right|left; reflexivity].
    destruct (Nat.ltb_spec 16 count); lia.
Qed.

Lemma lcd1602a_write_held_faulted
    (buf : user_buf) (count : nat) (w w' : world) (r : Z) :
  lcd1602a_write bus buf count w = Some (r, w') ->
  lock (priv w) = false -> lock (priv w') = true -> r = - EFAULT.
Proof.
  intros E Hk Hk'.
  apply lcd1602a_write_inv in E
    as [(_ & _ & ->)|[(_ & _ & _ & ->)
                      |(_ & _ & _ & n & cs & whole & _ & _ & _ & Hr & ->)]].
  - congruence.
  - cbn [priv lock emit] in Hk'. congruence.
  - cbn [priv lock] in Hk'. destruct whole; [discriminate Hk'|exact Hr].
Qed.

Lemma lcd1602a_write_then_ret (buf : user_buf) (count : nat) (w w' : world) :
  (lcd1602a_write bus buf count ;; ret tt) w = Some (tt, w') ->
  exists r, lcd1602a_write bus buf count w = Some (r, w').
Proof.
  unfold bind. intros H.
  destruct (lcd1602a_write bus buf count w) as [[r w1]|]; [|discriminate H].
  apply some_snd_inv in H. subst w1. exists r. reflexivity.
Qed.

(** X14. An operation that starts with the mutex free and returns with
    the mutex held is a write that returned [-EFAULT]. *)
Theorem only_faulting_write_keeps_mutex
    (scan : string -> option Z) (o : operation) (w w' : world) :
  run bus scan o w = Some (tt, w') ->
  lock (priv w) = false ->
  lock (priv w') = true ->
  exists buf count,
    o = OpWrite buf count /\
    lcd1602a_write bus buf count w = Some (- EFAULT, w').
Proof.
  destruct o; cbn [run]; intros H Hk Hk'.
  - exfalso. rewrite lcd1602a_poweron_run in H.
    apply some_snd_inv in H. subst w'. cbn [priv lock] in Hk'.
    rewrite Hk in Hk'. discriminate Hk'.
  - exfalso. rewrite lcd1602a_poweroff_run in H.
    apply some_snd_inv in H. subst w'. cbn [priv lock] in Hk'.
    rewrite Hk in Hk'. discriminate Hk'.
  - exfalso. rewrite lcd1602a_clear_sends in H.
    apply some_snd_inv in H. subst w'. cbn [priv lock] in Hk'.
    rewrite Hk in Hk'. discriminate Hk'.
  - exists buf, count. split; [reflexivity|].
    destruct (lcd1602a_write_then_ret buf count w w' H) as [r E].
    rewrite <- (lcd1602a_write_held_faulted buf count w w' r E Hk Hk'). exact E.
  - exfalso. apply some_snd_inv in H. subst w'. cbn [priv lock] in Hk'.
    rewrite Hk in Hk'. discriminate Hk'.
  - exfalso. unfold bind in H.
    rewrite lcd1602a_power_show_run in H by assumption.
    apply some_snd_inv in H. subst w'. cbn [priv lock] in Hk'.
    rewrite Hk in Hk'. discriminate Hk'.
  - exfalso. unfold bind in H.
    rewrite (lcd1602a_power_store_run bus scan) in H by assumption.
    cbv zeta in H. apply some_snd_inv in H. subst w'. discriminate Hk'.
Qed.

End Faults.

(** ** What a write costs and what the display receives *)

Lemma busy_time_app (a b : list event) :
  busy_time (a ++ b) = busy_time a + busy_time b.
Proof.
  induction a as [|e a IH]; [reflexivity|].
  destruct e; cbn [busy_time app]; rewrite IH; lia.
Qed.

Lemma busy_time_text (l : list Z) :
  busy_time (text_events l) = 1100 * Z.of_nat (List.length l).
Proof.
  induction l as [|c l IH]; [reflexivity|].
  unfold text_events in *. cbn [flat_map List.length].
  rewrite busy_time_app, IH.
  change (busy_time (sendByte_events c true true)) with 1100. lia.
Qed.

Lemma writes_of_text_length (l : list Z) :
  List.length (writes_of (text_events l)) = (4 * List.length l)%nat.
Proof.
  induction l as [|c l IH]; [reflexivity|].
  unfold text_events in *. cbn [flat_map List.length].
  rewrite writes_of_app, length_app, IH. cbn. lia.
Qed.

Lemma latch_sendByte (b : Z) (isData backlightOn : bool) (rest : list Z) :
  octet b ->
  latch (writes_of (sendByte_events b isData backlightOn) ++ rest) =
    (isData, b) :: latch rest.
Proof.
  intros Hb.
  cbn [sendByte_events nibble_events writes_of app latch]. f_equal. f_equal.
  - apply (encodeNibble_control (high_nibble b) isData backlightOn false),
      high_nibble_range, Hb.
  - unfold octet in Hb.
    destruct isData, backlightOn; by_enumeration octets_agree b Hb.
Qed.

Lemma latch_text (l : list Z) :
  Forall octet l -> latch (writes_of (text_events l)) = map (pair true) l.
Proof.
  induction 1 as [|c l Hc _ IH]; [reflexivity|].
  unfold text_events in *. cbn [flat_map map].
  rewrite writes_of_app, latch_sendByte, IH by assumption. reflexivity.
Qed.

Section Display.

Variable bus : list event -> Z -> Z.

(** X17. Every transfer can be read back: for every octet, either
    register and either state of the backlight, what the display latches
    from the four bytes of the transfer is that octet, for that register. *)
Theorem sendByte_round_trip (isData : bool) (b : Z) (w : world) :
  octet b ->
  exists w' added,
    sendByte bus isData b w = Some (tt, w') /\
    wire w' = wire w ++ added /\
    latch added = [(isData, b)].
Proof.
  intros Hb. eexists _, _.
  split; [apply sendByte_run, Hb|].
  split.
  - unfold wire. rewrite history_grow, writes_of_app. reflexivity.
  - rewrite <- (app_nil_r (writes_of _)).
    apply latch_sendByte, Hb.
Qed.

(** X7. A write of [N] readable octets to a device that is on puts
    [28 + 4 * min(N, 16)] bytes on the wire and busy-waits
    [15200 + 1100 * min(N, 16)] microseconds, at most 32800, all of it with
    the mutex held. *)
Theorem lcd1602a_write_cost (l : list Z) (w : world) :
  Forall octet l ->
  power (priv w) = true ->
  lock (priv w) = false ->
  exists w',
    lcd1602a_write bus (user_of_list l) (List.length l) w =
      Some (Z.of_nat (Nat.min 16 (List.length l)), w') /\
    List.length (wire w') =
      (List.length (wire w) + 28 + 4 * Nat.min 16 (List.length l))%nat /\
    busy_time (history w') =
      busy_time (history w) + 15200 + 1100 * Z.of_nat (Nat.min 16 (List.length l)) /\
    busy_time (history w') - busy_time (history w) <= 32800.
Proof.
  intros Hl Hp Hk.
  pose proof (lcd1602a_write_run bus l w Hl Hp Hk) as Hrun.
  rewrite length_firstn in Hrun.
  eexists. split; [exact Hrun|].
  assert (Ht : busy_time
                 (history
                    (mk_world (mk_priv true true false)
                       (rev ([EvLoad F_power; EvMutexLock] ++ poweron_events ++
                             text_events (firstn 16 l) ++ [EvMutexUnlock]) ++
                        trace w))) =
               busy_time (history w) + 15200 +
               1100 * Z.of_nat (Nat.min 16 (List.length l))).
  { rewrite history_grow, !busy_time_app, busy_time_text, length_firstn.
    change (busy_time [EvLoad F_power; EvMutexLock]) with 0.
    change (busy_time poweron_events) with 15200.
    change (busy_time [EvMutexUnlock]) with 0.
    fold (history w). lia. }
  split; [|split; [exact Ht|rewrite Ht; lia]].
  unfold wire. rewrite history_grow, !writes_of_app, !length_app.
  rewrite writes_of_text_length, length_firstn.
  change (List.length (writes_of [EvLoad F_power; EvMutexLock])) with 0%nat.
  change (List.length (writes_of poweron_events)) with 28%nat.
  change (List.length (writes_of [EvMutexUnlock])) with 0%nat.
  fold (history w). lia.
Qed.

(** X8. Read back from the wire the way the display latches it - RS and
    D4-D7 on each falling strobe, two nibbles to a byte - a write delivers
    the seven instructions of PowerOn to the instruction register and then
    the first 16 octets of the text, unchanged and in order, to the data
    register. *)
Theorem lcd1602a_write_latched (l : list Z) (w : world) :
  Forall octet l ->
  power (priv w) = true ->
  lock (priv w) = false ->
  exists w' added,
    lcd1602a_write bus (user_of_list l) (List.length l) w =
      Some (Z.of_nat (List.length (firstn 16 l)), w') /\
    wire w' = wire w ++ added /\
    latch added =
      map (pair false) [0x01; 0x02; 0x28; 0x0e; 0x0c; 0x06; 0x01] ++
      map (pair true) (firstn 16 l).
Proof.
  intros Hl Hp Hk.
  eexists _, _. split; [apply lcd1602a_write_run; assumption|].
  split.
  - unfold wire. rewrite history_grow, writes_of_app. reflexivity.
  - rewrite !writes_of_app.
    change (writes_of [EvLoad F_power; EvMutexLock]) with (@nil Z).
    change (writes_of [EvMutexUnlock]) with (@nil Z).
    rewrite app_nil_l, app_nil_r.
    rewrite <- (latch_text (firstn 16 l)) by (apply Forall_firstn_octet, Hl).
    reflexivity.
Qed.

(** X16. PowerOn busy-waits 15200 microseconds, PowerOff 10800 and Clear
    8300, from any state. *)
Theorem lifecycle_busy_times (w : world) :
  (exists w', lcd1602a_poweron bus w = Some (tt, w') /\
              busy_time (history w') = busy_time (history w) + 15200) /\
  (exists w', lcd1602a_poweroff bus w = Some (tt, w') /\
              busy_time (history w') = busy_time (history w) + 10800) /\
  (exists w', lcd1602a_clear bus w = Some (tt, w') /\
              busy_time (history w') = busy_time (history w) + 8300).
Proof.
  split; [|split].
  - eexists. split; [apply lcd1602a_poweron_run|].
    rewrite history_grow, busy_time_app. reflexivity.
  - eexists. split; [apply lcd1602a_poweroff_run|].
    rewrite history_grow, busy_time_app. reflexivity.
  - eexists. split; [apply lcd1602a_clear_sends|].
    rewrite history_grow, busy_time_app.
    destruct (light (priv w)); reflexivity.
Qed.

End Display.

(** ** What holds of every history *)

Section Always.

Variable bus : list event -> Z -> Z.
Variable scan : string -> option Z.

(** X9. After any sequence of operations since the attach, the bytes on
    the wire come in pairs, a byte with the strobe line high followed by the
    same byte with the strobe low; each is an octet whose R/W line (bit 1)
    is low: the driver never leaves the strobe raised and never asks the
    display to drive the bus. *)
Theorem wire_always_strobed (w : world) :
  reachable bus scan w ->
  strobed (wire w) = true /\ forallb line_ok (wire w) = true.
Proof.
  intros R. pose proof (reachable_orderly bus scan w R) as H.
  unfold orderly in H.
  apply andb_true_iff in H as [H _]. apply andb_true_iff in H as [H1 H2].
  split; assumption.
Qed.

(** X10. After any sequence of operations since the attach, every byte
    write in the history is followed at once by a wait: at least 50
    microseconds after a byte with the strobe high, at least 500 after a
    byte with the strobe low. *)
Theorem writes_always_paced (w : world) :
  reachable bus scan w -> paced (history w) = true.
Proof.
  intros R. pose proof (reachable_orderly bus scan w R) as H.
  unfold orderly in H. apply andb_true_iff in H as [_ H]. exact H.
Qed.

(** X11. A store to the power attribute followed by a load reads back
    what was stored: "0" after a store that converted nothing or 0, "1"
    after any other; and after the store the two flags are equal to that
    and the mutex is free. *)
Theorem power_store_then_show (buf : string) (count : nat) (w : world) :
  lock (priv w) = false ->
  exists w1 w2 on,
    on = negb (match scan buf with Some v => v | None => 0 end =? 0) /\
    lcd1602a_power_store bus scan buf count w = Some (Z.of_nat count, w1) /\
    power (priv w1) = on /\ light (priv w1) = on /\ lock (priv w1) = false /\
    lcd1602a_power_show w1 =
      Some ((String (if on then "1" else "0")%char newline, 2), w2).
Proof.
  intros Hk. eexists _, _, _. split; [reflexivity|].
  split; [rewrite lcd1602a_power_store_run by assumption; reflexivity|].
  repeat split.
  rewrite lcd1602a_power_show_run by reflexivity. reflexivity.
Qed.

(** X12. A load and a store of the power attribute return exactly when the
    mutex is free. *)
Theorem power_attribute_blocks (buf : string) (count : nat) (w : world) :
  (lcd1602a_power_show w = None <-> lock (priv w) = true) /\
  (lcd1602a_power_store bus scan buf count w = None <-> lock (priv w) = true).
Proof.
  destruct (lock (priv w)) eqn:Hk.
  - split; (split; [reflexivity|intros _]).
    + unfold lcd1602a_power_show, bind, mutex_lock. rewrite Hk. reflexivity.
    + unfold lcd1602a_power_store, bind, mutex_lock. rewrite Hk. reflexivity.
  - split; (split; [|discriminate]).
    + rewrite lcd1602a_power_show_run by assumption. discriminate.
    + rewrite lcd1602a_power_store_run by assumption. discriminate.
Qed.

(** X13. What a load or a store of the power attribute does is one
    critical section: the mutex is taken first and released last, and
    nothing else touches it in between. *)
Theorem power_attribute_critical_section (buf : string) (count : nat) (w : world) :
  lock (priv w) = false ->
  (exists r w' evs,
     lcd1602a_power_show w = Some (r, w') /\
     history w' = history w ++ evs /\ one_critical_section evs = true) /\
  (exists r w' evs,
     lcd1602a_power_store bus scan buf count w = Some (r, w') /\
     history w' = history w ++ evs /\ one_critical_section evs = true).
Proof.
  intros Hk. split.
  - eexists _, _, _. split; [apply lcd1602a_power_show_run, Hk|].
    split; [apply history_grow|reflexivity].
  - eexists _, _, _. split; [apply lcd1602a_power_store_run, Hk|].
    split; [apply history_grow|].
    destruct (_ =? 0); reflexivity.
Qed.

(** X15. Once a store to the power attribute has switched the device off,
    a write of any text returns 0 and adds no byte to the wire. *)
Theorem write_after_power_off (buf : string) (count : nat) (l : list Z) (w : world) :
  lock (priv w) = false ->
  match scan buf with Some v => v | None => 0 end = 0 ->
  exists w1 w2,
    lcd1602a_power_store bus scan buf count w = Some (Z.of_nat count, w1) /\
    lcd1602a_write bus (user_of_list l) (List.length l) w1 = Some (0, w2) /\
    wire w2 = wire w1 /\
    power (priv w2) = false.
Proof.
  intros Hk Hc. eexists _, _.
  split.
  { rewrite lcd1602a_power_store_run by assumption. rewrite Hc. reflexivity. }
  split.
  { apply lcd1602a_write_off_run; [cbn; apply Nat.leb_refl|reflexivity]. }
  split; [|reflexivity].
  unfold wire. rewrite history_emit, writes_of_app. apply app_nil_r.
Qed.

End Always.

(** ** Instances of the further properties *)

Lemma attached_reachable : reachable quiet_bus scan_int attached.
Proof. apply (reach_probe _ _ true true 0 0). vm_compute. reflexivity. Qed.

Lemma lcd1602a_write_reads_sixteen_witness :
  access_ok (user_of_list twenty_octets) 20 =
    access_ok (user_of_list (firstn 16 twenty_octets ++ [0; 0; 0; 0])) 20 /\
  (forall j, (j < 16)%nat ->
     get_user (user_of_list twenty_octets) j =
     get_user (user_of_list (firstn 16 twenty_octets ++ [0; 0; 0; 0])) j) /\
  lcd1602a_write quiet_bus (user_of_list twenty_octets) 20 powered_on =
  lcd1602a_write quiet_bus
    (user_of_list (firstn 16 twenty_octets ++ [0; 0; 0; 0])) 20 powered_on.
Proof.
  assert (Hg : forall j, (j < 16)%nat ->
     get_user (user_of_list twenty_octets) j =
     get_user (user_of_list (firstn 16 twenty_octets ++ [0; 0; 0; 0])) j).
  { intros j Hj. do 16 (destruct j as [|j]; [reflexivity|]). lia. }
  split; [reflexivity|]. split; [exact Hg|].
  apply (lcd1602a_write_reads_sixteen quiet_bus (user_of_list twenty_octets)
           (user_of_list (firstn 16 twenty_octets ++ [0; 0; 0; 0])) 20 powered_on);
    [reflexivity|exact Hg].
Defined.

Lemma lcd1602a_write_fault_midway_witness :
  access_ok half_mapped 3 = true /\
  power (priv powered_on) = true /\
  lock (priv powered_on) = false /\
  (forall j, (j < List.length [0x48; 0x49])%nat ->
             get_user half_mapped j = nth_error [0x48; 0x49] j) /\
  get_user half_mapped (List.length [0x48; 0x49]) = None /\
  (List.length [0x48; 0x49] < 3)%nat /\
  (List.length [0x48; 0x49] < 16)%nat /\
  exists w',
    lcd1602a_write quiet_bus half_mapped 3 powered_on = Some (- EFAULT, w') /\
    history w' =
      history powered_on ++ [EvLoad F_power; EvMutexLock] ++ poweron_events ++
      text_events (map u8 [0x48; 0x49]) /\
    power (priv w') = true /\ light (priv w') = true /\
    lock (priv w') = true /\
    lcd1602a_write quiet_bus half_mapped 3 w' = None.
Proof.
  assert (Hg : forall j, (j < List.length [0x48; 0x49])%nat ->
                         get_user half_mapped j = nth_error [0x48; 0x49] j).
  { intros [|[|j]] Hj; [reflexivity|reflexivity|cbn in Hj; lia]. }
  split; [reflexivity|]. split; [reflexivity|]. split; [reflexivity|].
  split; [exact Hg|]. split; [reflexivity|].
  split; [cbn; lia|]. split; [cbn; lia|].
  apply (lcd1602a_write_fault_midway quiet_bus half_mapped 3 [0x48; 0x49] powered_on);
    first [exact Hg | reflexivity | cbn; lia].
Defined.

Lemma lcd1602a_write_result_range_witness :
  lcd1602a_write quiet_bus (user_of_list [0x48]) 1 kzalloc =
    Some (0, emit (EvLoad F_power) kzalloc) /\
  (0 = - EFAULT \/ (0 <= 0 <= 16 /\ 0 <= Z.of_nat 1)).
Proof.
  split; [reflexivity|].
  apply (lcd1602a_write_result_range quiet_bus (user_of_list [0x48]) 1 kzalloc
           (emit (EvLoad F_power) kzalloc) 0).
  reflexivity.
Defined.

Lemma twenty_octets_are_octets : Forall octet twenty_octets.
Proof. repeat constructor; unfold octet; lia. Qed.

Lemma lcd1602a_write_cost_witness :
  Forall octet twenty_octets /\
  power (priv powered_on) = true /\
  lock (priv powered_on) = false /\
  exists w',
    lcd1602a_write quiet_bus (user_of_list twenty_octets)
      (List.length twenty_octets) powered_on =
      Some (Z.of_nat (Nat.min 16 (List.length twenty_octets)), w') /\
    List.length (wire w') =
      (List.length (wire powered_on) + 28 +
       4 * Nat.min 16 (List.length twenty_octets))%nat /\
    busy_time (history w') =
      busy_time (history powered_on) + 15200 +
      1100 * Z.of_nat (Nat.min 16 (List.length twenty_octets)) /\
    busy_time (history w') - busy_time (history powered_on) <= 32800.
Proof.
  split; [exact twenty_octets_are_octets|].
  split; [reflexivity|]. split; [reflexivity|].
  apply (lcd1602a_write_cost quiet_bus twenty_octets powered_on
           twenty_octets_are_octets); reflexivity.
Defined.

Lemma lcd1602a_write_latched_witness :
  Forall octet twenty_octets /\
  power (priv powered_on) = true /\
  lock (priv powered_on) = false /\
  exists w' added,
    lcd1602a_write quiet_bus (user_of_list twenty_octets)
      (List.length twenty_octets) powered_on =
      Some (Z.of_nat (List.length (firstn 16 twenty_octets)), w') /\
    wire w' = wire powered_on ++ added /\
    latch added =
      map (pair false) [0x01; 0x02; 0x28; 0x0e; 0x0c; 0x06; 0x01] ++
      map (pair true) (firstn 16 twenty_octets).
Proof.
  split; [exact twenty_octets_are_octets|].
  split; [reflexivity|]. split; [reflexivity|].
  apply (lcd1602a_write_latched quiet_bus twenty_octets powered_on
           twenty_octets_are_octets); reflexivity.
Defined.

Lemma wire_always_strobed_witness :
  reachable quiet_bus scan_int attached /\
  strobed (wire attached) = true /\ forallb line_ok (wire attached) = true.
Proof.
  split; [exact attached_reachable|].
  apply (wire_always_strobed quiet_bus scan_int attached attached_reachable).
Defined.

Lemma writes_always_paced_witness :
  reachable quiet_bus scan_int attached /\ paced (history attached) = true.
Proof.
  split; [exact attached_reachable|].
  apply (writes_always_paced quiet_bus scan_int attached attached_reachable).
Defined.

Lemma power_store_then_show_witness :
  lock (priv kzalloc) = false /\
  exists w1 w2 on,
    on = negb (match scan_int "1" with Some v => v | None => 0 end =? 0) /\
    lcd1602a_power_store quiet_bus scan_int "1" 1 kzalloc = Some (Z.of_nat 1, w1) /\
    power (priv w1) = on /\ light (priv w1) = on /\ lock (priv w1) = false /\
    lcd1602a_power_show w1 =
      Some ((String (if on then "1" else "0")%char newline, 2), w2).
Proof.
  split; [reflexivity|].
  apply (power_store_then_show quiet_bus scan_int "1" 1 kzalloc). reflexivity.
Defined.

Lemma power_attribute_critical_section_witness :
  lock (priv powered_on) = false /\
  (exists r w' evs,
     lcd1602a_power_show powered_on = Some (r, w') /\
     history w' = history powered_on ++ evs /\ one_critical_section evs = true) /\
  (exists r w' evs,
     lcd1602a_power_store quiet_bus scan_int "0" 1 powered_on = Some (r, w') /\
     history w' = history powered_on ++ evs /\ one_critical_section evs = true).
Proof.
  split; [reflexivity|].
  apply (power_attribute_critical_section quiet_bus scan_int "0" 1 powered_on).
  reflexivity.
Defined.

Lemma only_faulting_write_keeps_mutex_witness :
  run quiet_bus scan_int (OpWrite faulting_buf 1) powered_on = Some (tt, wedged) /\
  lock (priv powered_on) = false /\
  lock (priv wedged) = true /\
  exists buf count,
    OpWrite faulting_buf 1 = OpWrite buf count /\
    lcd1602a_write quiet_bus buf count powered_on = Some (- EFAULT, wedged).
Proof.
  assert (H : run quiet_bus scan_int (OpWrite faulting_buf 1) powered_on =
              Some (tt, wedged)) by (vm_compute; reflexivity).
  split; [exact H|]. split; [reflexivity|]. split; [reflexivity|].
  apply (only_faulting_write_keeps_mutex quiet_bus scan_int
           (OpWrite faulting_buf 1) powered_on wedged H); reflexivity.
Defined.

Lemma write_after_power_off_witness :
  lock (priv powered_on) = false /\
  match scan_int "0" with Some v => v | None => 0 end = 0 /\
  exists w1 w2,
    lcd1602a_power_store quiet_bus scan_int "0" 1 powered_on = Some (Z.of_nat 1, w1) /\
    lcd1602a_write quiet_bus (user_of_list [0x48; 0x49]) (List.length [0x48; 0x49]) w1
      = Some (0, w2) /\
    wire w2 = wire w1 /\
    power (priv w2) = false.
Proof.
  split; [reflexivity|]. split; [reflexivity|].
  apply (write_after_power_off quiet_bus scan_int "0" 1 [0x48; 0x49] powered_on);
    reflexivity.
Defined.

Lemma sendByte_round_trip_witness :
  octet 0x28 /\
  exists w' added,
    sendByte quiet_bus false 0x28 kzalloc = Some (tt, w') /\
    wire w' = wire kzalloc ++ added /\
    latch added = [(false, 0x28)].
Proof.
  assert (H : octet 0x28) by (unfold octet; lia).
  split; [exact H|].
  apply (sendByte_round_trip quiet_bus false 0x28 kzalloc H).
Defined.
